(** * databases.ts: the current database and the recently selected ones

    A shallow embedding of [src/databases.ts].  The module keeps the list of
    databases shown in the side bar, the currently selected one, and the
    entry of the workspace state in which the selection survives a session.

    JavaScript objects of class [DatabaseItem] are compared by reference
    ([element == this.current]) and one of their fields is written after
    construction by a callback, so they live in an object store and the
    program handles addresses into it.  Every function of the source that
    reads or writes [this], shows a message or throws is a computation in
    the monad [Exec]: it takes the state and returns an outcome, a value or
    a thrown error, together with the state reached. *)

From Stdlib Require Import ZArith Ascii String List.
From stdpp Require Import base option list strings gmap.
Import ListNotations.

Local Open Scope string_scope.
Local Open Scope list_scope.

(** ** Node's [path] module, POSIX flavour *)

Module path.

Definition sep : ascii := "/"%char.

Definition isPathSeparator (c : ascii) : bool := Ascii.eqb c sep.

(** The segments of a path: the pieces between separators, empty ones
    included. *)
Fixpoint segments (p : string) : list string :=
  match p with
  | EmptyString => [EmptyString]
  | String c rest =>
      if isPathSeparator c then EmptyString :: segments rest
      else match segments rest with
           | seg :: segs => String c seg :: segs
           | [] => [String c EmptyString]
           end
  end.

(** One step of [normalizeString]: [res] holds the segments kept so far,
    the last one first. *)
Definition normalizeSegment (allowAboveRoot : bool)
    (res : list string) (seg : string) : list string :=
  if String.eqb seg "" || String.eqb seg "." then res
  else if String.eqb seg ".." then
    match res with
    | top :: below =>
        if String.eqb top ".." then
          (if allowAboveRoot then ".." :: res else res)
        else below
    | [] => if allowAboveRoot then [".."] else []
    end
  else seg :: res.

Definition normalizeString (p : string) (allowAboveRoot : bool) : string :=
  String.concat "/"
    (rev (fold_left (normalizeSegment allowAboveRoot) (segments p) [])).

Definition startsWithSep (p : string) : bool :=
  match p with
  | String c _ => isPathSeparator c
  | EmptyString => false
  end.

Fixpoint endsWithSep (p : string) : bool :=
  match p with
  | EmptyString => false
  | String c EmptyString => isPathSeparator c
  | String _ rest => endsWithSep rest
  end.

Definition normalize (p : string) : string :=
  if String.eqb p "" then "."
  else
    let isAbsolute := startsWithSep p in
    let trailingSeparator := endsWithSep p in
    let q := normalizeString p (negb isAbsolute) in
    let q := if String.eqb q "" && negb isAbsolute then "." else q in
    let q := if negb (String.eqb q "") && trailingSeparator
             then q +:+ "/" else q in
    if isAbsolute then "/" +:+ q else q.

(** [path.join(a, b)]: the non-empty arguments, separated, normalized. *)
Definition join (a b : string) : string :=
  match String.eqb a "", String.eqb b "" with
  | true, true => "."
  | true, false => normalize b
  | false, true => normalize a
  | false, false => normalize (a +:+ "/" +:+ b)
  end.

(** [path.basename(p)]: trailing separators are dropped, then the part
    after the last separator is returned. *)
Fixpoint dropSeps (cs : list ascii) : list ascii :=
  match cs with
  | c :: rest => if isPathSeparator c then dropSeps rest else cs
  | [] => []
  end.

Fixpoint takeSegment (cs : list ascii) : list ascii :=
  match cs with
  | c :: rest => if isPathSeparator c then [] else c :: takeSegment rest
  | [] => []
  end.

Definition basename (p : string) : string :=
  string_of_list_ascii
    (rev (takeSegment (dropSeps (rev (list_ascii_of_string p))))).

End path.

(** ** [vscode.Uri]

    Of a uri the program reads the scheme and the file-system path.
    [Uri.file p] is the file uri of the path [p]. *)

Record Uri := { scheme : string; fsPath : string }.

Module Uri.

Definition file (p : string) : Uri := {| scheme := "file"; fsPath := p |}.

(** The text of a uri in a template string, without percent-encoding. *)
Definition toString (u : Uri) : string := scheme u +:+ "://" +:+ fsPath u.

End Uri.

(** ** The file system

    [readdirSync] answers the names of the children of a directory, in
    listing order, or fails (the path is missing or is no directory), in
    which case Node throws a system error.  [exists_] is the answer that
    [fs.exists] passes to its callback. *)

Record FileSystem := {
  readdirSync : string -> option (list string);
  exists_ : string -> bool;
}.

(** ** Errors, effects and the state *)

Inductive Error :=
| NoDatabaseError (message : string)      (* class NoDatabaseError *)
| Error_ (message : string)               (* new Error(message) *)
| SystemError (syscall : string) (p : string) (* thrown by the fs module *)
| TypeError (message : string).

Definition instanceof_NoDatabaseError (e : Error) : bool :=
  match e with NoDatabaseError _ => true | _ => false end.

Definition message (e : Error) : string :=
  match e with
  | NoDatabaseError m => m
  | Error_ m => m
  | SystemError syscall p => syscall +:+ " '" +:+ p +:+ "'"
  | TypeError m => m
  end.

(** What the user interface and the console are asked to do, oldest
    first. *)
Inductive Effect :=
| showWarningMessage (msg : string)
| showErrorMessage (msg : string)
| fire                                   (* _onDidChangeTreeData.fire() *)
| createTreeView (viewId : string)
| console_log (msg : string)
| console_error (e : Error).

(** Addresses of [DatabaseItem] objects. *)
Definition ref := nat.

Record DatabaseItem := {
  snapshotUri : Uri;
  dbUri : Uri;
  srcRoot : option Uri;
  name : string;
}.

Definition set_srcRoot (v : option Uri) (it : DatabaseItem) : DatabaseItem :=
  {| snapshotUri := snapshotUri it; dbUri := dbUri it;
     srcRoot := v; name := name it |}.

Record State := mkState {
  heap : list DatabaseItem;          (* the DatabaseItem objects, by address *)
  databases : list ref;                (* DatabaseTreeDataProvider.databases *)
  current : option ref;                (* DatabaseTreeDataProvider.current *)
  workspaceState : gmap string string; (* ctx.workspaceState *)
  effects : list Effect;
  pending : list ref;                  (* fs.exists callbacks not yet run *)
}.

Definition set_heap (f : list DatabaseItem -> list DatabaseItem) (s : State) : State :=
  mkState (f (heap s)) (databases s) (current s) (workspaceState s) (effects s) (pending s).
Definition set_databases (f : list ref -> list ref) (s : State) : State :=
  mkState (heap s) (f (databases s)) (current s) (workspaceState s) (effects s) (pending s).
Definition set_current (v : option ref) (s : State) : State :=
  mkState (heap s) (databases s) v (workspaceState s) (effects s) (pending s).
Definition set_workspaceState (f : gmap string string -> gmap string string) (s : State) : State :=
  mkState (heap s) (databases s) (current s) (f (workspaceState s)) (effects s) (pending s).
Definition set_effects (f : list Effect -> list Effect) (s : State) : State :=
  mkState (heap s) (databases s) (current s) (workspaceState s) (f (effects s)) (pending s).
Definition set_pending (f : list ref -> list ref) (s : State) : State :=
  mkState (heap s) (databases s) (current s) (workspaceState s) (effects s) (f (pending s)).

(** ** The monad of computations that may throw *)

Inductive Outcome (A : Type) :=
| Returned (a : A)
| Thrown (e : Error).
Arguments Returned {A} a.
Arguments Thrown {A} e.

Definition Exec (A : Type) : Type := State -> Outcome A * State.

Definition ret {A} (a : A) : Exec A := fun s => (Returned a, s).

Definition throw {A} (e : Error) : Exec A := fun s => (Thrown e, s).

Definition bind {A B} (c : Exec A) (k : A -> Exec B) : Exec B :=
  fun s =>
    match c s with
    | (Returned a, s1) => k a s1
    | (Thrown e, s1) => (Thrown e, s1)
    end.

(** [try { c } catch (e) { handler e }] *)
Definition try_catch {A} (c : Exec A) (handler : Error -> Exec A) : Exec A :=
  fun s =>
    match c s with
    | (Returned a, s1) => (Returned a, s1)
    | (Thrown e, s1) => handler e s1
    end.

Definition modify (f : State -> State) : Exec unit := fun s => (Returned tt, f s).

Definition gets {A} (f : State -> A) : Exec A := fun s => (Returned (f s), s).

Declare Scope exec_scope.
Delimit Scope exec_scope with exec.
Notation "x <- c ;; k" := (bind c (fun x => k))
  (at level 100, c at next level, right associativity) : exec_scope.
Notation "c ;; k" := (bind c (fun _ => k))
  (at level 100, right associativity) : exec_scope.
Local Open Scope exec_scope.

Definition emit (e : Effect) : Exec unit :=
  modify (set_effects (fun es => es ++ [e])).

(** [workspaceState.update(key, value)]; [undefined] removes the key. *)
Definition workspaceState_update (key : string) (value : option string) : Exec unit :=
  modify (set_workspaceState (fun m =>
    match value with
    | Some v => <[key := v]> m
    | None => delete key m
    end)).

Definition CURRENT_DB : string := "currentDatabase".

(** ** DatabaseItem: the constructor and [findDb] *)

Definition startsWith (s pre : string) : bool := String.prefix pre s.

Module DatabaseItem.

(** [files.forEach(file => { if (file.startsWith('db-')) matches.push(file) })] *)
Definition findDb (fs : FileSystem) (uri : Uri) : Exec (list string) :=
  match readdirSync fs (fsPath uri) with
  | None => throw (SystemError "scandir" (fsPath uri))
  | Some files =>
      ret (fold_left
             (fun matches file =>
                if startsWith file "db-" then matches ++ [file] else matches)
             files [])
  end.

(** [new] puts the object in the store.  An object whose constructor
    throws is never reachable, so the store is extended only when the
    constructor returns. *)
Definition alloc (it : DatabaseItem) : Exec ref :=
  fun s => (Returned (length (heap s)), set_heap (fun h => h ++ [it]) s).

Definition constructor (fs : FileSystem) (uri : Uri) : Exec ref :=
  dbRelativePaths <- findDb fs uri ;;
  match dbRelativePaths with
  | [] =>
      throw (NoDatabaseError
               (fsPath uri +:+ " doesn't appear to be a valid snapshot directory."))
  | first :: _ =>
      let dbAbsolutePath := path.join (fsPath uri) first in
      (if Nat.ltb 1 (length dbRelativePaths)
       then emit (showWarningMessage
                    ("Found multiple database directories in snapshot, using "
                     +:+ dbAbsolutePath))
       else ret tt) ;;
      this <- alloc {| snapshotUri := uri;
                       dbUri := Uri.file dbAbsolutePath;
                       srcRoot := None;
                       name := path.basename (fsPath uri) |} ;;
      modify (set_pending (fun q => q ++ [this])) ;;
      ret this
  end.

(** The callback given to [fs.exists] in the constructor, run for the
    object [this] once the answer is known. *)
Definition exists_callback (fs : FileSystem) (this : ref) : Exec unit :=
  it <- gets (fun s => heap s !! this) ;;
  match it with
  | None => ret tt
  | Some it =>
      let uri := snapshotUri it in
      if exists_ fs (path.join (fsPath uri) "src") then
        modify (set_heap
          <[this := set_srcRoot
                      (Some (Uri.file (path.join (fsPath uri) "src"))) it]>)
      else
        emit (console_log ("Could not determine source root for database "
                           +:+ Uri.toString uri
                           +:+ ". Assuming paths are absolute.")) ;;
        modify (set_heap <[this := set_srcRoot None it]>)
  end.

End DatabaseItem.

(** ** The folder chooser

    [dialog] is what [Window.showOpenDialog] resolves to: [None] when the
    user cancels, the chosen uris otherwise. *)

Definition chooseDatabaseDir (dialog : option (list Uri)) : option Uri :=
  match dialog with
  | None => None
  | Some chosen => head chosen
  end.

(** ** Icons of the tree view *)

Inductive ThemableIconPath :=
| Themed (light dark : string)
| Plain (p : string).

Definition SELECTED_DATABASE_ICON : ThemableIconPath :=
  Themed "media/check-light-mode.svg" "media/check-dark-mode.svg".

Definition INVALID_DATABASE_ICON : ThemableIconPath := Plain "media/red-x.svg".

Definition joinThemableIconPath (base : string) (iconPath : ThemableIconPath)
    : ThemableIconPath :=
  match iconPath with
  | Themed light dark => Themed (path.join base light) (path.join base dark)
  | Plain p => Plain (path.join base p)
  end.

Record TreeItem := {
  label : string;
  iconPath : option ThemableIconPath;
  tooltip : string;
}.

(** ** DatabaseTreeDataProvider *)

(** [Array.prototype.findIndex]: the index of the first element that
    satisfies [p], [-1] when there is none. *)
Fixpoint findIndex_from {A} (p : A -> bool) (l : list A) (i : Z) : Z :=
  match l with
  | [] => (-1)%Z
  | x :: rest => if p x then i else findIndex_from p rest (i + 1)%Z
  end.

Definition findIndex {A} (p : A -> bool) (l : list A) : Z := findIndex_from p l 0%Z.

(** Reading a field of the object at an address.  Addresses come from
    [alloc] only, so the failure case is never met by the program. *)
Definition deref (r : ref) : Exec DatabaseItem :=
  fun s =>
    match heap s !! r with
    | Some it => (Returned it, s)
    | None => (Thrown (TypeError "Cannot read property of undefined"), s)
    end.

Module DatabaseTreeDataProvider.

Definition constructor (dbs : list ref) (cur : option ref) : Exec unit :=
  modify (set_databases (fun _ => dbs)) ;;
  modify (set_current cur).

Definition getTreeItem (extensionPath : string) (element : ref) (s : State)
    : option TreeItem :=
  it ← heap s !! element;
  Some {| label := name it;
          iconPath := if bool_decide (Some element = current s)
                      then Some (joinThemableIconPath extensionPath SELECTED_DATABASE_ICON)
                      else None;
          tooltip := fsPath (snapshotUri it) |}.

Definition getChildren (element : option ref) (s : State) : list ref :=
  match element with
  | None => databases s
  | Some _ => []
  end.

Definition getParent (element : ref) : option ref := None.

Definition getCurrent : Exec (option ref) := gets current.

Definition setCurrentItem (item : ref) : Exec unit :=
  modify (set_current (Some item)) ;;
  emit fire.

(** The test of the search, [it => it.dbUri.fsPath == dir.fsPath]; [==] on
    two strings compares their characters.  The items of the list are
    allocated objects, so the lookup in the store succeeds. *)
Definition sameDb (h : list DatabaseItem) (dir : Uri) (it : ref) : bool :=
  match h !! it with
  | Some o => String.eqb (fsPath (dbUri o)) (fsPath dir)
  | None => false
  end.

(** When the search answers an index, the index is within the list; out of
    range [this.databases[ix]] would be [undefined], which is what the last
    branch writes. *)
Definition setCurrentUri (fs : FileSystem) (dir : Uri) : Exec unit :=
  fun s =>
    match DatabaseItem.constructor fs dir s with
    | (Thrown e, s1) =>
        if instanceof_NoDatabaseError e
        then emit (showErrorMessage (message e)) s1
        else (Thrown e, s1)
    | (Returned item, s1) =>
        let ix := findIndex (sameDb (heap s1) dir) (databases s1) in
        if (ix =? -1)%Z then
          (modify (set_databases (fun dbs => dbs ++ [item])) ;;
           setCurrentItem item) s1
        else
          match databases s1 !! Z.to_nat ix with
          | Some existing => setCurrentItem existing s1
          | None => (modify (set_current None) ;; emit fire) s1
          end
    end.

End DatabaseTreeDataProvider.

(** ** DatabaseManager *)

(** The state in which a session starts: nothing but the workspace state
    left by earlier sessions. *)
Definition initial (ws : gmap string string) : State :=
  mkState [] [] None ws [] [].

Module DatabaseManager.

Definition constructor (fs : FileSystem) : Exec unit :=
  db <- gets (fun s => workspaceState s !! CURRENT_DB) ;;
  dbi <- match db with
         | Some db =>
             try_catch
               (item <- DatabaseItem.constructor fs (Uri.file db) ;; ret (Some item))
               (fun e =>
                  if instanceof_NoDatabaseError e then
                    emit (showErrorMessage (message e)) ;;
                    workspaceState_update CURRENT_DB None ;;
                    ret None
                  else throw e)
         | None => ret None
         end ;;
  let dbs := match dbi with None => [] | Some d => [d] end in
  DatabaseTreeDataProvider.constructor dbs dbi ;;
  emit (createTreeView "qlDatabases").

Definition setCurrentItem (db : ref) : Exec unit :=
  DatabaseTreeDataProvider.setCurrentItem db.

Definition UnsupportedScheme (sch : string) : Error :=
  Error_ ("Database uri scheme " +:+ sch
          +:+ " not supported, only file uris are supported.").

Definition setCurrentDatabase (fs : FileSystem) (db : Uri) : Exec unit :=
  if negb (String.eqb (scheme db) "file") then
    throw (UnsupportedScheme (scheme db))
  else
    DatabaseTreeDataProvider.setCurrentUri fs db ;;
    workspaceState_update CURRENT_DB (Some (fsPath db)).

(** An [async] function: [Thrown] is the rejection of its promise. *)
Definition chooseAndSetDatabase (fs : FileSystem) (dialog : option (list Uri))
    : Exec (option Uri) :=
  let chosen := chooseDatabaseDir dialog in
  match chosen with
  | Some db => setCurrentDatabase fs db
  | None => ret tt
  end ;;
  ret chosen.

Definition getDatabaseDir (fs : FileSystem) (dialog : option (list Uri))
    : Exec (option Uri) :=
  db <- DatabaseTreeDataProvider.getCurrent ;;
  match db with
  | None => chooseAndSetDatabase fs dialog
  | Some db => it <- deref db ;; ret (Some (dbUri it))
  end.

Definition chooseAndSetDatabaseSync (fs : FileSystem) (dialog : option (list Uri))
    : Exec unit :=
  try_catch
    (chooseAndSetDatabase fs dialog ;; ret tt)
    (fun e => emit (console_error e)).

End DatabaseManager.

(** ** The event loop and the states a session reaches *)

(** The oldest waiting [fs.exists] callback is run. *)
Definition run_callback (fs : FileSystem) : Exec unit :=
  q <- gets pending ;;
  match q with
  | [] => ret tt
  | this :: rest =>
      modify (set_pending (fun _ => rest)) ;;
      DatabaseItem.exists_callback fs this
  end.

Inductive Call :=
| Call_setCurrentUri (fs : FileSystem) (dir : Uri)
| Call_setCurrentItem (item : ref)
| Call_setCurrentDatabase (fs : FileSystem) (db : Uri)
| Call_chooseAndSetDatabase (fs : FileSystem) (dialog : option (list Uri))
| Call_getDatabaseDir (fs : FileSystem) (dialog : option (list Uri))
| Call_callback (fs : FileSystem).

(** The state after a call, whether it returned or threw. *)
Definition perform (c : Call) (s : State) : State :=
  match c with
  | Call_setCurrentUri fs dir => snd (DatabaseTreeDataProvider.setCurrentUri fs dir s)
  | Call_setCurrentItem item => snd (DatabaseManager.setCurrentItem item s)
  | Call_setCurrentDatabase fs db => snd (DatabaseManager.setCurrentDatabase fs db s)
  | Call_chooseAndSetDatabase fs dialog => snd (DatabaseManager.chooseAndSetDatabase fs dialog s)
  | Call_getDatabaseDir fs dialog => snd (DatabaseManager.getDatabaseDir fs dialog s)
  | Call_callback fs => snd (run_callback fs s)
  end.

(** [setCurrentItem] is to be given an item of the list. *)
Definition allowed (c : Call) (s : State) : Prop :=
  match c with
  | Call_setCurrentItem item => item ∈ databases s
  | _ => True
  end.

Inductive reachable : State -> Prop :=
| reachable_init fs ws s :
    DatabaseManager.constructor fs (initial ws) = (Returned tt, s) ->
    reachable s
| reachable_call c s :
    reachable s -> allowed c s -> reachable (perform c s).

(** The number of change notifications sent to the tree view so far. *)
Definition is_fire (e : Effect) : bool :=
  match e with fire => true | _ => false end.

Definition fires (s : State) : nat := length (List.filter is_fire (effects s)).

Definition is_warning (e : Effect) : bool :=
  match e with showWarningMessage _ => true | _ => false end.

Definition warnings (s : State) : list Effect := List.filter is_warning (effects s).

(** ** A small file system for the examples *)

Definition fs_example : FileSystem := {|
  readdirSync p :=
    if String.eqb p "/snaps/myproj" || String.eqb p "/snaps/myproj/"
    then Some ["db-cpp"; "src"]
    else if String.eqb p "/snaps/empty" then Some ["readme.txt"]
    else if String.eqb p "/snaps/multi" then Some ["log"; "db-java"; "db-cpp"]
    else None;
  exists_ p := String.eqb p "/snaps/myproj/src";
|}.

(** A snapshot directory whose database directory holds a [db-] child of
    its own. *)
Definition fs_nested : FileSystem := {|
  readdirSync p :=
    if String.eqb p "/snaps/myproj" then Some ["db-cpp"]
    else if String.eqb p "/snaps/myproj/db-cpp" then Some ["db-inner"; "default"]
    else None;
  exists_ p := false;
|}.

Definition myproj : Uri := Uri.file "/snaps/myproj".
Definition myproj_slash : Uri := Uri.file "/snaps/myproj/".
Definition empty_snapshot : Uri := Uri.file "/snaps/empty".
Definition multi : Uri := Uri.file "/snaps/multi".

(** The outcome of the validation done by the constructor, read off the
    directory listing. *)
Definition dbMatches (files : list string) : list string :=
  List.filter (fun file => startsWith file "db-") files.

Definition validates (fs : FileSystem) (uri : Uri) : bool :=
  match readdirSync fs (fsPath uri) with
  | Some files => existsb (fun file => startsWith file "db-") files
  | None => false
  end.

Definition multipleWarning (uri : Uri) (first : string) : Effect :=
  showWarningMessage
    ("Found multiple database directories in snapshot, using "
     +:+ path.join (fsPath uri) first).

Definition newItem (uri : Uri) (first : string) : DatabaseItem :=
  {| snapshotUri := uri;
     dbUri := Uri.file (path.join (fsPath uri) first);
     srcRoot := None;
     name := path.basename (fsPath uri) |}.

(** The state in which a successful construction leaves the program. *)
Definition constructed (uri : Uri) (first : string) (rest : list string)
    (s : State) : State :=
  mkState (heap s ++ [newItem uri first]) (databases s) (current s)
    (workspaceState s)
    (match rest with
     | [] => effects s
     | _ :: _ => effects s ++ [multipleWarning uri first]
     end)
    (pending s ++ [length (heap s)]).

(** The three ways in which a construction ends. *)
Inductive construction (fs : FileSystem) (uri : Uri) (s : State)
    : Outcome ref * State -> Prop :=
| construction_unreadable :
    readdirSync fs (fsPath uri) = None ->
    construction fs uri s (Thrown (SystemError "scandir" (fsPath uri)), s)
| construction_no_match files :
    readdirSync fs (fsPath uri) = Some files ->
    dbMatches files = [] ->
    construction fs uri s
      (Thrown (NoDatabaseError
                 (fsPath uri +:+ " doesn't appear to be a valid snapshot directory.")), s)
| construction_match files first rest :
    readdirSync fs (fsPath uri) = Some files ->
    dbMatches files = first :: rest ->
    construction fs uri s (Returned (length (heap s)), constructed uri first rest s).

(** The four ways in which [setCurrentUri] ends. *)
Inductive selection (fs : FileSystem) (dir : Uri) (s : State)
    : Outcome unit * State -> Prop :=
| selection_unreadable :
    readdirSync fs (fsPath dir) = None ->
    selection fs dir s (Thrown (SystemError "scandir" (fsPath dir)), s)
| selection_rejected files :
    readdirSync fs (fsPath dir) = Some files ->
    dbMatches files = [] ->
    selection fs dir s
      (Returned tt,
       set_effects (fun es => es ++
         [showErrorMessage
            (fsPath dir +:+ " doesn't appear to be a valid snapshot directory.")]) s)
| selection_added files first rest :
    readdirSync fs (fsPath dir) = Some files ->
    dbMatches files = first :: rest ->
    Forall (fun it => DatabaseTreeDataProvider.sameDb
                        (heap (constructed dir first rest s)) dir it = false)
           (databases s) ->
    selection fs dir s
      (DatabaseTreeDataProvider.setCurrentItem (length (heap s))
         (set_databases (fun dbs => dbs ++ [length (heap s)])
            (constructed dir first rest s)))
| selection_reused files first rest ix existing :
    readdirSync fs (fsPath dir) = Some files ->
    dbMatches files = first :: rest ->
    databases s !! ix = Some existing ->
    DatabaseTreeDataProvider.sameDb (heap (constructed dir first rest s)) dir existing
    = true ->
    Forall (fun it => DatabaseTreeDataProvider.sameDb
                        (heap (constructed dir first rest s)) dir it = false)
           (take ix (databases s)) ->
    selection fs dir s
      (DatabaseTreeDataProvider.setCurrentItem existing
         (constructed dir first rest s)).

(** The invariant written next to the field [current]: when it is not
    undefined, it is reference-equal to an item of [databases]. *)
Definition current_in_databases (s : State) : Prop :=
  forall r, current s = Some r -> r ∈ databases s.

(** Every item of the list is the address of an object in the store. *)
Definition listed_allocated (s : State) : Prop :=
  forall r, r ∈ databases s -> r < length (heap s).

(** The four ways in which the construction of the manager ends, by the
    persisted path and the listing of its directory. *)
Inductive startup (fs : FileSystem) (ws : gmap string string)
    : Outcome unit * State -> Prop :=
| startup_fresh :
    ws !! CURRENT_DB = None ->
    startup fs ws
      (Returned tt, mkState [] [] None ws [createTreeView "qlDatabases"] [])
| startup_unreadable db :
    ws !! CURRENT_DB = Some db ->
    readdirSync fs db = None ->
    startup fs ws (Thrown (SystemError "scandir" db), initial ws)
| startup_cleared db files :
    ws !! CURRENT_DB = Some db ->
    readdirSync fs db = Some files ->
    dbMatches files = [] ->
    startup fs ws
      (Returned tt,
       mkState [] [] None (delete CURRENT_DB ws)
         [showErrorMessage (db +:+ " doesn't appear to be a valid snapshot directory.");
          createTreeView "qlDatabases"] [])
| startup_restored db files first rest :
    ws !! CURRENT_DB = Some db ->
    readdirSync fs db = Some files ->
    dbMatches files = first :: rest ->
    startup fs ws
      (Returned tt,
       mkState [newItem (Uri.file db) first] [0] (Some 0) ws
         (match rest with
          | [] => [createTreeView "qlDatabases"]
          | _ :: _ => [multipleWarning (Uri.file db) first; createTreeView "qlDatabases"]
          end) [0]).

(** Whether the tree item of [element] carries the icon of the selected
    database. *)
Definition showsSelected (extensionPath : string) (s : State) (element : ref) : bool :=
  match DatabaseTreeDataProvider.getTreeItem extensionPath element s with
  | Some ti => match iconPath ti with Some _ => true | None => false end
  | None => false
  end.

(** What the constructor establishes of an item: the database directory is
    a child of the snapshot directory named [db-...], given as a file uri,
    and the name is the last segment of the snapshot directory. *)
Definition item_ok (it : DatabaseItem) : Prop :=
  scheme (dbUri it) = "file" /\
  name it = path.basename (fsPath (snapshotUri it)) /\
  exists child, startsWith child "db-" = true /\
                fsPath (dbUri it) = path.join (fsPath (snapshotUri it)) child.

(** The items whose [fs.exists] callback has not run yet are distinct
    objects of the store and have no source root. *)
Definition pending_unresolved (s : State) : Prop :=
  NoDup (pending s) /\
  forall r, r ∈ pending s ->
    exists it, heap s !! r = Some it /\ srcRoot it = None.

(** The fields of an object that no operation writes after construction. *)
Definition same_identity (a b : DatabaseItem) : Prop :=
  snapshotUri a = snapshotUri b /\ dbUri a = dbUri b /\ name a = name b.

(** What "the last segment of a path" means: the path is a front part that
    is empty or ends in a separator, then the segment, which is not empty
    and holds no separator, then separators only. *)
Definition noSeparator (seg : string) : bool :=
  forallb (fun c => negb (path.isPathSeparator c)) (list_ascii_of_string seg).

Definition onlySeparators (trailing : string) : bool :=
  forallb path.isPathSeparator (list_ascii_of_string trailing).

Definition lastSegmentOf (p seg : string) : Prop :=
  exists front trailing,
    p = front +:+ seg +:+ trailing /\
    (front = "" \/ path.endsWithSep front = true) /\
    seg <> "" /\ noSeparator seg = true /\ onlySeparators trailing = true.

(** * Properties *)

Example path_join_child : path.join "/snaps/myproj" "db-cpp" = "/snaps/myproj/db-cpp".
Proof. reflexivity. Qed.
Example path_join_trailing : path.join "/snaps/myproj/" "db-cpp" = "/snaps/myproj/db-cpp".
Proof. reflexivity. Qed.
Example path_join_dots : path.join "/snaps/./x/../myproj" "db-cpp" = "/snaps/myproj/db-cpp".
Proof. reflexivity. Qed.
Example path_join_relative : path.join "../a" "../../b/" = "../../b/".
Proof. reflexivity. Qed.
Example path_basename_root : path.basename "/snaps/myproj" = "myproj".
Proof. reflexivity. Qed.
Example path_basename_trailing : path.basename "/snaps/myproj//" = "myproj".
Proof. reflexivity. Qed.

(** ** The constructor *)

Lemma forEach_push_filter (files acc : list string) :
  fold_left (fun matches file =>
               if startsWith file "db-" then matches ++ [file] else matches)
            files acc
  = acc ++ dbMatches files.
Proof.
  revert acc. induction files as [|f files IH]; intros acc; simpl.
  - by rewrite app_nil_r.
  - rewrite IH. destruct (startsWith f "db-"); simpl; [|done].
    by rewrite <- app_assoc.
Qed.

Lemma findDb_listing fs uri files s :
  readdirSync fs (fsPath uri) = Some files ->
  DatabaseItem.findDb fs uri s = (Returned (dbMatches files), s).
Proof.
  intros H. unfold DatabaseItem.findDb. rewrite H.
  by rewrite forEach_push_filter.
Qed.

Lemma constructor_unreadable fs uri s :
  readdirSync fs (fsPath uri) = None ->
  DatabaseItem.constructor fs uri s
  = (Thrown (SystemError "scandir" (fsPath uri)), s).
Proof.
  intros H. unfold DatabaseItem.constructor, bind, DatabaseItem.findDb.
  by rewrite H.
Qed.

Lemma constructor_no_match fs uri files s :
  readdirSync fs (fsPath uri) = Some files ->
  dbMatches files = [] ->
  DatabaseItem.constructor fs uri s
  = (Thrown (NoDatabaseError
               (fsPath uri +:+ " doesn't appear to be a valid snapshot directory.")), s).
Proof.
  intros H Hm. unfold DatabaseItem.constructor, bind.
  by rewrite (findDb_listing _ _ _ _ H), Hm.
Qed.

Lemma constructor_match fs uri files first rest s :
  readdirSync fs (fsPath uri) = Some files ->
  dbMatches files = first :: rest ->
  DatabaseItem.constructor fs uri s
  = (Returned (length (heap s)), constructed uri first rest s).
Proof.
  intros H Hm. unfold DatabaseItem.constructor, bind.
  rewrite (findDb_listing _ _ _ _ H), Hm.
  destruct rest as [|second rest]; reflexivity.
Qed.

Lemma constructor_cases fs uri s :
  construction fs uri s (DatabaseItem.constructor fs uri s).
Proof.
  destruct (readdirSync fs (fsPath uri)) as [files|] eqn:H.
  - destruct (dbMatches files) as [|first rest] eqn:Hm.
    + rewrite (constructor_no_match _ _ _ _ H Hm). by eapply construction_no_match.
    + rewrite (constructor_match _ _ _ _ _ _ H Hm). by eapply construction_match.
  - rewrite (constructor_unreadable _ _ _ H). by constructor.
Qed.

Lemma dbMatches_none files :
  Forall (fun file => startsWith file "db-" = false) files ->
  dbMatches files = [].
Proof.
  induction 1 as [|f files Hf _ IH]; simpl; [done|]. by rewrite Hf.
Qed.

(** A listing with a match splits at its first match. *)
Lemma first_match files :
  existsb (fun file => startsWith file "db-") files = true ->
  exists pre m post,
    files = pre ++ m :: post /\
    Forall (fun file => startsWith file "db-" = false) pre /\
    startsWith m "db-" = true /\
    dbMatches files = m :: dbMatches post.
Proof.
  induction files as [|f files IH]; simpl; [done|].
  destruct (startsWith f "db-") eqn:Hf; simpl.
  - intros _. exists [], f, files. by rewrite Hf.
  - intros H. destruct (IH H) as (pre & m & post & -> & Hpre & Hm & Heq).
    exists (f :: pre), m, post. repeat split; auto.
Qed.

Lemma dbMatches_rest_nil post :
  dbMatches post = [] <-> existsb (fun file => startsWith file "db-") post = false.
Proof.
  induction post as [|f post IH]; simpl; [done|].
  destruct (startsWith f "db-"); simpl; [split; discriminate | exact IH].
Qed.

(** ** The last segment of a path *)

Lemma chars_append (a b : string) :
  list_ascii_of_string (a +:+ b) = list_ascii_of_string a ++ list_ascii_of_string b.
Proof.
  induction a as [|c a IH]; simpl; [done|]. by rewrite IH.
Qed.

Lemma dropSeps_separators (l rest : list ascii) :
  (forall c, In c l -> path.isPathSeparator c = true) ->
  path.dropSeps (l ++ rest) = path.dropSeps rest.
Proof.
  induction l as [|c l IH]; intros Hl; simpl; [done|].
  rewrite (Hl c) by (by left). apply IH. intros c' Hc'. apply Hl. by right.
Qed.

Lemma dropSeps_segment (c : ascii) (l : list ascii) :
  path.isPathSeparator c = false -> path.dropSeps (c :: l) = c :: l.
Proof. intros H. simpl. by rewrite H. Qed.

Lemma takeSegment_segment (l rest : list ascii) :
  (forall c, In c l -> path.isPathSeparator c = false) ->
  (rest = [] \/ exists c rest', rest = c :: rest' /\ path.isPathSeparator c = true) ->
  path.takeSegment (l ++ rest) = l.
Proof.
  intros Hl Hrest. induction l as [|c l IH]; simpl.
  - destruct Hrest as [->|(c & rest' & -> & Hc)]; simpl; [done|]. by rewrite Hc.
  - rewrite (Hl c) by (by left). f_equal. apply IH.
    intros c' Hc'. apply Hl. by right.
Qed.

Lemma endsWithSep_last (p : string) :
  path.endsWithSep p = true ->
  exists q c, list_ascii_of_string p = q ++ [c] /\ path.isPathSeparator c = true.
Proof.
  induction p as [|c p IH]; [done|].
  destruct p as [|c' p'].
  - simpl. intros Hc. by exists [], c.
  - intros H. destruct (IH H) as (q & d & Hq & Hd).
    exists (c :: q), d. split; [|done].
    change (list_ascii_of_string (String c (String c' p')))
      with (c :: list_ascii_of_string (String c' p')).
    by rewrite Hq.
Qed.

(** [path.basename] answers the last segment of a path that has one. *)
Lemma basename_lastSegment (p seg : string) :
  lastSegmentOf p seg -> path.basename p = seg.
Proof.
  intros (front & trailing & -> & Hfront & Hne & Hseg & Htrail).
  unfold path.basename, noSeparator, onlySeparators in *.
  rewrite !chars_append, !rev_app_distr, <- app_assoc.
  rewrite forallb_forall in Hseg. rewrite forallb_forall in Htrail.
  rewrite dropSeps_separators by (intros c Hc; apply Htrail; by apply in_rev).
  assert (Hrev : forall c, In c (rev (list_ascii_of_string seg)) ->
                   path.isPathSeparator c = false).
  { intros c Hc. apply in_rev in Hc. apply Hseg in Hc.
    by destruct (path.isPathSeparator c). }
  destruct (rev (list_ascii_of_string seg)) as [|c l] eqn:Hl.
  { apply (f_equal (@rev ascii)) in Hl. rewrite rev_involutive in Hl. simpl in Hl.
    destruct seg; [done|discriminate]. }
  change ((c :: l) ++ rev (list_ascii_of_string front))
    with (c :: (l ++ rev (list_ascii_of_string front))).
  rewrite dropSeps_segment by (apply Hrev; by left).
  change (c :: (l ++ rev (list_ascii_of_string front)))
    with ((c :: l) ++ rev (list_ascii_of_string front)).
  rewrite takeSegment_segment.
  - rewrite <- Hl, rev_involutive. apply string_of_list_ascii_of_string.
  - exact Hrev.
  - destruct Hfront as [->|Hfront]; [by left|right].
    destruct (endsWithSep_last front Hfront) as (q & d & Hq & Hd).
    exists d, (rev q). split; [|done]. by rewrite Hq, rev_app_distr.
Qed.

(** A path of separators only, the empty one included, has no segment and
    [path.basename] answers the empty string. *)
Lemma basename_no_segment (p : string) :
  onlySeparators p = true -> path.basename p = "".
Proof.
  unfold onlySeparators, path.basename. rewrite forallb_forall. intros Hp.
  rewrite <- (app_nil_r (rev (list_ascii_of_string p))).
  rewrite dropSeps_separators by (intros c Hc; apply Hp; by apply in_rev).
  reflexivity.
Qed.

(** C6: a directory with at least one child whose name starts with [db-]
    is accepted.  The item's database path is the directory joined with the
    first such child in listing order, and a warning is shown exactly when a
    later child matches as well: once in that case, not at all otherwise.
    The item's name is [path.basename] of the directory, which is its last
    segment: whenever the directory reads as a front part that is empty or
    ends in a separator, a non-empty segment without separator, and
    trailing separators only, the name is that segment; for a directory of
    separators only it is empty. *)
Theorem constructor_selects_first_match fs D files s :
  readdirSync fs (fsPath D) = Some files ->
  existsb (fun file => startsWith file "db-") files = true ->
  exists pre m post this s',
    files = pre ++ m :: post /\
    Forall (fun file => startsWith file "db-" = false) pre /\
    startsWith m "db-" = true /\
    DatabaseItem.constructor fs D s = (Returned this, s') /\
    heap s' !! this
    = Some {| snapshotUri := D;
              dbUri := Uri.file (path.join (fsPath D) m);
              srcRoot := None;
              name := path.basename (fsPath D) |} /\
    effects s'
    = effects s ++
      (if existsb (fun file => startsWith file "db-") post
       then [showWarningMessage
               ("Found multiple database directories in snapshot, using "
                +:+ path.join (fsPath D) m)]
       else []) /\
    (forall seg, lastSegmentOf (fsPath D) seg ->
       (name <$> heap s' !! this) = Some seg) /\
    (onlySeparators (fsPath D) = true ->
       (name <$> heap s' !! this) = Some "").
Proof.
  intros Hdir Hex.
  destruct (first_match files Hex) as (pre & m & post & Hfiles & Hpre & Hm & Heq).
  exists pre, m, post, (length (heap s)), (constructed D m (dbMatches post) s).
  assert (Hnew : heap (constructed D m (dbMatches post) s) !! length (heap s)
                 = Some (newItem D m)).
  { simpl. by rewrite lookup_app_r, Nat.sub_diag. }
  split; [done|]. split; [done|]. split; [done|].
  split; [by apply constructor_match with files|].
  split; [exact Hnew|]. split; [|split].
  - simpl. destruct (dbMatches post) as [|x l] eqn:Hpost.
    + apply dbMatches_rest_nil in Hpost. rewrite Hpost. by rewrite app_nil_r.
    + destruct (existsb _ post) eqn:Hp; [done|].
      apply dbMatches_rest_nil in Hp. congruence.
  - intros seg Hseg.
    transitivity (name <$> Some (newItem D m));
      [exact (f_equal (fmap name) Hnew)|].
    simpl. f_equal. by apply basename_lastSegment.
  - intros Hseps.
    transitivity (name <$> Some (newItem D m));
      [exact (f_equal (fmap name) Hnew)|].
    simpl. f_equal. by apply basename_no_segment.
Qed.

Lemma constructor_selects_first_match_witness :
  exists this s',
    DatabaseItem.constructor fs_example multi (initial ∅) = (Returned this, s') /\
    (dbUri <$> heap s' !! this) = Some (Uri.file "/snaps/multi/db-java") /\
    (name <$> heap s' !! this) = Some "multi" /\
    length (warnings s') = 1.
Proof.
  destruct (constructor_selects_first_match fs_example multi
              ["log"; "db-java"; "db-cpp"] (initial ∅) eq_refl eq_refl)
    as (pre & m & post & this & s' & Hfiles & Hpre & Hm & Hc & Hh & He & Hname & _).
  exists this, s'. split; [exact Hc|].
  assert (Hlast : lastSegmentOf (fsPath multi) "multi").
  { exists "/snaps/", "". repeat split; try reflexivity.
    - by right.
    - discriminate. }
  split; [|split; [exact (Hname "multi" Hlast)|]].
  - vm_compute in Hc. injection Hc as <- <-. reflexivity.
  - vm_compute in Hc. injection Hc as <- <-. reflexivity.
Defined.

(** C5: a directory none of whose children has a name starting with [db-]
    is rejected with a [NoDatabaseError] whose message is the directory
    followed by " doesn't appear to be a valid snapshot directory.", and
    [setCurrentUri] on such a directory changes neither the list of
    databases nor the current one. *)
Theorem no_database_rejected fs D files s :
  readdirSync fs (fsPath D) = Some files ->
  Forall (fun file => startsWith file "db-" = false) files ->
  DatabaseItem.constructor fs D s
  = (Thrown (NoDatabaseError
               (fsPath D +:+ " doesn't appear to be a valid snapshot directory.")), s)
  /\ exists s',
       DatabaseTreeDataProvider.setCurrentUri fs D s = (Returned tt, s') /\
       databases s' = databases s /\
       current s' = current s /\
       heap s' = heap s.
Proof.
  intros Hdir Hnone.
  pose proof (constructor_no_match fs D files s Hdir (dbMatches_none _ Hnone)) as Hc.
  split; [exact Hc|].
  unfold DatabaseTreeDataProvider.setCurrentUri. rewrite Hc. simpl.
  eexists. split; [reflexivity|]. by repeat split.
Qed.

Lemma no_database_rejected_witness :
  DatabaseItem.constructor fs_example empty_snapshot (initial ∅)
  = (Thrown (NoDatabaseError
               "/snaps/empty doesn't appear to be a valid snapshot directory."),
     initial ∅).
Proof.
  apply (no_database_rejected fs_example empty_snapshot ["readme.txt"] (initial ∅)).
  - reflexivity.
  - repeat constructor.
Defined.

(** ** The search of [setCurrentUri] *)

Lemma findIndex_from_spec {A} (p : A -> bool) (l : list A) (i : Z) :
  (findIndex_from p l i = (-1)%Z /\ Forall (fun x => p x = false) l)
  \/ exists n x,
       findIndex_from p l i = (i + Z.of_nat n)%Z /\
       l !! n = Some x /\ p x = true /\
       Forall (fun y => p y = false) (take n l).
Proof.
  revert i. induction l as [|a l IH]; intros i; simpl.
  - left. by split.
  - destruct (p a) eqn:Ha.
    + right. exists 0, a. repeat split; auto; simpl; try lia.
    + destruct (IH (i + 1)%Z) as [[H1 H2]|(n & x & H1 & H2 & H3 & H4)].
      * left. split; auto.
      * right. exists (S n), x. repeat split; auto; simpl; try lia.
        by constructor.
Qed.

Lemma findIndex_spec {A} (p : A -> bool) (l : list A) :
  (findIndex p l = (-1)%Z /\ Forall (fun x => p x = false) l)
  \/ exists n x,
       findIndex p l = Z.of_nat n /\
       l !! n = Some x /\ p x = true /\
       Forall (fun y => p y = false) (take n l).
Proof.
  unfold findIndex.
  destruct (findIndex_from_spec p l 0) as [H|(n & x & H & H')]; [by left|].
  right. exists n, x. split; [|done]. by rewrite H.
Qed.

Lemma setCurrentUri_cases fs dir s :
  selection fs dir s (DatabaseTreeDataProvider.setCurrentUri fs dir s).
Proof.
  unfold DatabaseTreeDataProvider.setCurrentUri.
  destruct (constructor_cases fs dir s) as [H|files H Hm|files first rest H Hm].
  - simpl. by constructor.
  - simpl. by eapply selection_rejected.
  - set (s1 := constructed dir first rest s).
    change (databases s1) with (databases s).
    destruct (findIndex_spec (DatabaseTreeDataProvider.sameDb (heap s1) dir)
                (databases s)) as [[Hix Hall]|(n & x & Hix & Hn & Hx & Hall)].
    + rewrite Hix. simpl. by eapply selection_added.
    + rewrite Hix. destruct (Z.eqb_spec (Z.of_nat n) (-1)) as [Hneg|_]; [lia|].
      rewrite Nat2Z.id, Hn. by eapply selection_reused.
Qed.

(** ** Change notifications *)

Lemma fires_emit e s :
  fires (set_effects (fun es => es ++ [e]) s)
  = fires s + (if is_fire e then 1 else 0).
Proof.
  unfold fires. simpl. rewrite List.filter_app, length_app. simpl.
  by destruct (is_fire e).
Qed.

Lemma fires_constructed uri first rest s :
  fires (constructed uri first rest s) = fires s.
Proof.
  destruct rest as [|second rest]; [done|].
  unfold constructed, fires. simpl.
  rewrite List.filter_app, length_app. simpl. lia.
Qed.

Lemma fires_setCurrentItem item s :
  fires (snd (DatabaseTreeDataProvider.setCurrentItem item s)) = S (fires s).
Proof.
  unfold DatabaseTreeDataProvider.setCurrentItem, bind, modify, emit. simpl.
  rewrite (fires_emit fire (set_current (Some item) s)). simpl.
  unfold fires. simpl. lia.
Qed.

(** C10: a call of [setCurrentUri] that ends in [NoDatabaseError] sends no
    change notification to the tree view, and a call whose item is
    constructed sends exactly one, through [setCurrentItem], before it
    returns. *)
Theorem setCurrentUri_fires fs dir s :
  (forall msg s1,
     DatabaseItem.constructor fs dir s = (Thrown (NoDatabaseError msg), s1) ->
     exists s',
       DatabaseTreeDataProvider.setCurrentUri fs dir s = (Returned tt, s') /\
       fires s' = fires s)
  /\
  (forall item s1,
     DatabaseItem.constructor fs dir s = (Returned item, s1) ->
     exists selected s2,
       DatabaseTreeDataProvider.setCurrentUri fs dir s
       = DatabaseTreeDataProvider.setCurrentItem selected s2 /\
       fires s2 = fires s /\
       fst (DatabaseTreeDataProvider.setCurrentUri fs dir s) = Returned tt /\
       fires (snd (DatabaseTreeDataProvider.setCurrentUri fs dir s)) = S (fires s)).
Proof.
  split.
  - intros msg s1 Hc.
    destruct (setCurrentUri_cases fs dir s) as
      [H|files H Hm|files first rest H Hm Hall|files first rest ix existing H Hm Hix Hx Hall].
    + rewrite (constructor_unreadable _ _ _ H) in Hc. discriminate.
    + eexists. split; [reflexivity|].
      rewrite fires_emit. simpl. lia.
    + rewrite (constructor_match _ _ _ _ _ _ H Hm) in Hc. discriminate.
    + rewrite (constructor_match _ _ _ _ _ _ H Hm) in Hc. discriminate.
  - intros item s1 Hc.
    destruct (setCurrentUri_cases fs dir s) as
      [H|files H Hm|files first rest H Hm Hall|files first rest ix existing H Hm Hix Hx Hall].
    + rewrite (constructor_unreadable _ _ _ H) in Hc. discriminate.
    + rewrite (constructor_no_match _ _ _ _ H Hm) in Hc. discriminate.
    + eexists _, _. split; [reflexivity|].
      split; [|split; [reflexivity|]].
      * apply (fires_constructed dir first rest s).
      * rewrite fires_setCurrentItem. f_equal.
        apply (fires_constructed dir first rest s).
    + eexists _, _. split; [reflexivity|].
      split; [|split; [reflexivity|]].
      * apply (fires_constructed dir first rest s).
      * rewrite fires_setCurrentItem. f_equal.
        apply (fires_constructed dir first rest s).
Qed.

Lemma setCurrentUri_fires_witness :
  fires (snd (DatabaseTreeDataProvider.setCurrentUri fs_example empty_snapshot (initial ∅))) = 0
  /\ fires (snd (DatabaseTreeDataProvider.setCurrentUri fs_example myproj (initial ∅))) = 1.
Proof.
  destruct (setCurrentUri_fires fs_example empty_snapshot (initial ∅)) as [Hno _].
  destruct (setCurrentUri_fires fs_example myproj (initial ∅)) as [_ Hyes].
  split.
  - destruct (Hno _ _ eq_refl) as (s' & Hs & Hf). rewrite Hs. exact Hf.
  - destruct (Hyes _ _ eq_refl) as (selected & s2 & _ & _ & _ & Hf). exact Hf.
Defined.


(** ** The current item is an item of the list *)

Lemma invariant_setCurrentItem item s :
  item ∈ databases s ->
  current_in_databases (snd (DatabaseTreeDataProvider.setCurrentItem item s)).
Proof.
  intros Hin r Hr. simpl in *. by injection Hr as <-.
Qed.

Lemma invariant_setCurrentUri fs dir s :
  current_in_databases s ->
  current_in_databases (snd (DatabaseTreeDataProvider.setCurrentUri fs dir s)).
Proof.
  intros Hinv.
  destruct (setCurrentUri_cases fs dir s) as
    [H|files H Hm|files first rest H Hm Hall|files first rest ix existing H Hm Hix Hx Hall].
  - exact Hinv.
  - exact Hinv.
  - apply invariant_setCurrentItem. simpl. set_solver.
  - apply invariant_setCurrentItem. simpl. by eapply list_elem_of_lookup_2.
Qed.

Lemma invariant_setCurrentDatabase fs db s :
  current_in_databases s ->
  current_in_databases (snd (DatabaseManager.setCurrentDatabase fs db s)).
Proof.
  intros Hinv. unfold DatabaseManager.setCurrentDatabase.
  destruct (negb _); [exact Hinv|].
  unfold bind.
  pose proof (invariant_setCurrentUri fs db s Hinv) as H.
  destruct (DatabaseTreeDataProvider.setCurrentUri fs db s) as [[[]|e] s1]; exact H.
Qed.

Lemma invariant_chooseAndSetDatabase fs dialog s :
  current_in_databases s ->
  current_in_databases (snd (DatabaseManager.chooseAndSetDatabase fs dialog s)).
Proof.
  intros Hinv. unfold DatabaseManager.chooseAndSetDatabase, bind.
  destruct (chooseDatabaseDir dialog) as [db|]; [|exact Hinv].
  pose proof (invariant_setCurrentDatabase fs db s Hinv) as H.
  destruct (DatabaseManager.setCurrentDatabase fs db s) as [[[]|e] s1]; exact H.
Qed.

Lemma invariant_getDatabaseDir fs dialog s :
  current_in_databases s ->
  current_in_databases (snd (DatabaseManager.getDatabaseDir fs dialog s)).
Proof.
  intros Hinv. unfold DatabaseManager.getDatabaseDir, bind.
  unfold DatabaseTreeDataProvider.getCurrent, gets.
  destruct (current s) as [db|] eqn:Hcur.
  - unfold deref. destruct (heap s !! db); exact Hinv.
  - by apply invariant_chooseAndSetDatabase.
Qed.

Lemma invariant_callback fs s :
  current_in_databases s ->
  current_in_databases (snd (run_callback fs s)).
Proof.
  intros Hinv. unfold run_callback, bind, gets.
  destruct (pending s) as [|this rest]; [exact Hinv|].
  unfold DatabaseItem.exists_callback, bind, gets, modify. simpl.
  destruct (heap s !! this); [|exact Hinv].
  destruct (exists_ fs _); exact Hinv.
Qed.

Lemma invariant_constructor fs ws s :
  DatabaseManager.constructor fs (initial ws) = (Returned tt, s) ->
  current_in_databases s.
Proof.
  unfold DatabaseManager.constructor, bind, gets, try_catch.
  destruct (workspaceState (initial ws) !! CURRENT_DB) as [db|].
  - destruct (constructor_cases fs (Uri.file db) (initial ws))
      as [H|files H Hm|files first rest H Hm]; simpl.
    + discriminate.
    + intros [= <-] r. discriminate.
    + intros [= <-] r. simpl. intros [= <-]. set_solver.
  - simpl. intros [= <-] r. discriminate.
Qed.

Lemma reachable_current_in_databases s :
  reachable s -> current_in_databases s.
Proof.
  induction 1 as [fs ws s Hinit|c s Hreach IH Hallowed].
  - by eapply invariant_constructor.
  - destruct c; simpl in *.
    + by apply invariant_setCurrentUri.
    + by apply invariant_setCurrentItem.
    + by apply invariant_setCurrentDatabase.
    + by apply invariant_chooseAndSetDatabase.
    + by apply invariant_getDatabaseDir.
    + by apply invariant_callback.
Qed.

(** C7: in every state reached from the construction of the manager by
    calls of [setCurrentUri] and by calls of [setCurrentItem] on items of
    the list (and by the other operations of the manager and the pending
    callbacks), a current item that is set is the address of an element of
    [databases]. *)
Theorem current_is_listed s r :
  reachable s -> current s = Some r -> r ∈ databases s.
Proof.
  intros Hreach. by apply reachable_current_in_databases.
Qed.

Lemma current_is_listed_witness :
  0 ∈ databases
        (perform (Call_setCurrentItem 0)
           (perform (Call_setCurrentUri fs_example multi)
              (perform (Call_setCurrentUri fs_example myproj)
                 (snd (DatabaseManager.constructor fs_example (initial ∅)))))).
Proof.
  apply current_is_listed; [|reflexivity].
  apply reachable_call.
  - apply reachable_call; [|exact I].
    apply reachable_call; [|exact I].
    by apply (reachable_init fs_example ∅).
  - vm_compute. left.
Defined.

(** ** The items of the list are allocated *)

Lemma allocated_setCurrentUri fs dir s :
  listed_allocated s ->
  listed_allocated (snd (DatabaseTreeDataProvider.setCurrentUri fs dir s)).
Proof.
  intros Hinv.
  destruct (setCurrentUri_cases fs dir s) as
    [H|files H Hm|files first rest H Hm Hall|files first rest ix existing H Hm Hix Hx Hall].
  - exact Hinv.
  - exact Hinv.
  - intros r. simpl. rewrite length_app, elem_of_app, list_elem_of_singleton.
    simpl. intros [Hr| ->]; [specialize (Hinv r Hr)|]; lia.
  - intros r. simpl. rewrite length_app. intros Hr. specialize (Hinv r Hr). lia.
Qed.

Lemma allocated_setCurrentDatabase fs db s :
  listed_allocated s ->
  listed_allocated (snd (DatabaseManager.setCurrentDatabase fs db s)).
Proof.
  intros Hinv. unfold DatabaseManager.setCurrentDatabase.
  destruct (negb _); [exact Hinv|].
  unfold bind.
  pose proof (allocated_setCurrentUri fs db s Hinv) as H.
  destruct (DatabaseTreeDataProvider.setCurrentUri fs db s) as [[[]|e] s1]; exact H.
Qed.

Lemma allocated_chooseAndSetDatabase fs dialog s :
  listed_allocated s ->
  listed_allocated (snd (DatabaseManager.chooseAndSetDatabase fs dialog s)).
Proof.
  intros Hinv. unfold DatabaseManager.chooseAndSetDatabase, bind.
  destruct (chooseDatabaseDir dialog) as [db|]; [|exact Hinv].
  pose proof (allocated_setCurrentDatabase fs db s Hinv) as H.
  destruct (DatabaseManager.setCurrentDatabase fs db s) as [[[]|e] s1]; exact H.
Qed.

Lemma allocated_callback fs s :
  listed_allocated s ->
  listed_allocated (snd (run_callback fs s)).
Proof.
  intros Hinv. unfold run_callback, bind, gets.
  destruct (pending s) as [|this rest]; [exact Hinv|].
  unfold DatabaseItem.exists_callback, bind, gets, modify. simpl.
  destruct (heap s !! this); [|exact Hinv].
  destruct (exists_ fs _); intros r Hr; simpl in *;
    rewrite length_insert; by apply Hinv.
Qed.

Lemma allocated_constructor fs ws s :
  DatabaseManager.constructor fs (initial ws) = (Returned tt, s) ->
  listed_allocated s.
Proof.
  unfold DatabaseManager.constructor, bind, gets, try_catch.
  destruct (workspaceState (initial ws) !! CURRENT_DB) as [db|].
  - destruct (constructor_cases fs (Uri.file db) (initial ws))
      as [H|files H Hm|files first rest H Hm]; simpl.
    + discriminate.
    + intros [= <-] r. simpl. by intros ?%elem_of_nil.
    + intros [= <-] r. simpl. rewrite list_elem_of_singleton. intros ->. lia.
  - simpl. intros [= <-] r. simpl. by intros ?%elem_of_nil.
Qed.

(** The objects the search of [setCurrentUri] and [getDatabaseDir] read
    are in the store. *)
Lemma reachable_listed_allocated s :
  reachable s -> listed_allocated s.
Proof.
  induction 1 as [fs ws s Hinit|c s Hreach IH Hallowed].
  - by eapply allocated_constructor.
  - destruct c; simpl in *.
    + by apply allocated_setCurrentUri.
    + exact IH.
    + by apply allocated_setCurrentDatabase.
    + by apply allocated_chooseAndSetDatabase.
    + unfold DatabaseManager.getDatabaseDir, bind.
      unfold DatabaseTreeDataProvider.getCurrent, gets.
      destruct (current s) as [db|].
      * unfold deref. destruct (heap s !! db); exact IH.
      * by apply allocated_chooseAndSetDatabase.
    + by apply allocated_callback.
Qed.

(** In a state the program reaches, [db.dbUri] in [getDatabaseDir] reads an
    object of the store. *)
Lemma reachable_current_allocated s r :
  reachable s -> current s = Some r -> is_Some (heap s !! r).
Proof.
  intros Hreach Hcur. apply lookup_lt_is_Some.
  apply (reachable_listed_allocated s Hreach).
  by apply reachable_current_in_databases.
Qed.

(** ** Unsupported schemes *)

Lemma setCurrentUri_never_Error fs dir s msg s' :
  DatabaseTreeDataProvider.setCurrentUri fs dir s <> (Thrown (Error_ msg), s').
Proof.
  destruct (setCurrentUri_cases fs dir s); discriminate.
Qed.

(** C9: [setCurrentDatabase] throws the error that names the unsupported
    scheme exactly when the scheme of the uri is not [file].  The error is
    thrown before anything is written: the state in which it is thrown is
    the state of the call, and [chooseAndSetDatabase] lets it through to its
    caller. *)
Theorem setCurrentDatabase_unsupported_scheme fs db s :
  ((exists msg s', DatabaseManager.setCurrentDatabase fs db s
                   = (Thrown (Error_ msg), s'))
   <-> scheme db <> "file")
  /\ (scheme db <> "file" ->
      DatabaseManager.setCurrentDatabase fs db s
      = (Thrown (DatabaseManager.UnsupportedScheme (scheme db)), s)
      /\ DatabaseManager.chooseAndSetDatabase fs (Some [db]) s
         = (Thrown (DatabaseManager.UnsupportedScheme (scheme db)), s)).
Proof.
  assert (Hthrow : scheme db <> "file" ->
            DatabaseManager.setCurrentDatabase fs db s
            = (Thrown (DatabaseManager.UnsupportedScheme (scheme db)), s)).
  { intros Hne. unfold DatabaseManager.setCurrentDatabase.
    destruct (String.eqb_spec (scheme db) "file") as [Heq|_]; [done|].
    reflexivity. }
  split; [split|].
  - intros (msg & s' & H) Heq.
    unfold DatabaseManager.setCurrentDatabase in H. rewrite Heq in H. simpl in H.
    unfold bind in H.
    pose proof (setCurrentUri_never_Error fs db s msg s') as Hnever.
    destruct (DatabaseTreeDataProvider.setCurrentUri fs db s) as [[[]|e] s1].
    + discriminate.
    + congruence.
  - intros Hne. eexists _, _. by apply Hthrow.
  - intros Hne. split; [by apply Hthrow|].
    unfold DatabaseManager.chooseAndSetDatabase, bind. simpl.
    by rewrite (Hthrow Hne).
Qed.

Lemma setCurrentDatabase_unsupported_scheme_witness :
  DatabaseManager.setCurrentDatabase fs_example
    {| scheme := "vscode-remote"; fsPath := "/snaps/myproj" |} (initial ∅)
  = (Thrown (Error_ "Database uri scheme vscode-remote not supported, only file uris are supported."),
     initial ∅).
Proof.
  apply (setCurrentDatabase_unsupported_scheme fs_example
           {| scheme := "vscode-remote"; fsPath := "/snaps/myproj" |} (initial ∅)).
  discriminate.
Defined.

(** ** Persistence *)

Lemma validates_matches fs uri :
  validates fs uri = true ->
  exists files first rest,
    readdirSync fs (fsPath uri) = Some files /\ dbMatches files = first :: rest.
Proof.
  unfold validates. destruct (readdirSync fs (fsPath uri)) as [files|]; [|done].
  intros H. destruct (first_match files H) as (pre & m & post & _ & _ & _ & Heq).
  by exists files, m, (dbMatches post).
Qed.

Lemma setCurrentDatabase_persists fs db s s' :
  DatabaseManager.setCurrentDatabase fs db s = (Returned tt, s') ->
  scheme db = "file" /\ workspaceState s' !! CURRENT_DB = Some (fsPath db).
Proof.
  unfold DatabaseManager.setCurrentDatabase.
  destruct (String.eqb_spec (scheme db) "file") as [Heq|Hne]; simpl; [|done].
  unfold bind.
  destruct (DatabaseTreeDataProvider.setCurrentUri fs db s) as [[[]|e] s1]; [|done].
  intros [= <-]. split; [done|]. simpl. apply lookup_insert_eq.
Qed.

(** C8: when [chooseAndSetDatabase] has returned for the chosen directory
    [D], a manager constructed afterwards from the workspace state, on a
    file system in which [D] still validates, starts with exactly one item,
    which is the current one and whose snapshot directory is [D]. *)
Theorem persistence_round_trip fs1 fs2 dialog D s v s' :
  chooseDatabaseDir dialog = Some D ->
  DatabaseManager.chooseAndSetDatabase fs1 dialog s = (Returned v, s') ->
  validates fs2 D = true ->
  exists s2 r it,
    DatabaseManager.constructor fs2 (initial (workspaceState s')) = (Returned tt, s2) /\
    current s2 = Some r /\
    databases s2 = [r] /\
    heap s2 !! r = Some it /\
    fsPath (snapshotUri it) = fsPath D /\
    snapshotUri it = D.
Proof.
  intros Hchosen Hcall Hvalid.
  unfold DatabaseManager.chooseAndSetDatabase, bind in Hcall.
  rewrite Hchosen in Hcall.
  destruct (DatabaseManager.setCurrentDatabase fs1 D s) as [[[]|e] s1] eqn:Hset;
    [|discriminate].
  injection Hcall as <- <-.
  destruct (setCurrentDatabase_persists _ _ _ _ Hset) as [Hscheme Hws].
  assert (HD : Uri.file (fsPath D) = D).
  { destruct D as [sch p]. simpl in *. by subst. }
  destruct (validates_matches fs2 D Hvalid) as (files & first & rest & Hdir & Hm).
  exists (DatabaseManager.constructor fs2 (initial (workspaceState s1))).2, 0,
    (newItem D first).
  unfold DatabaseManager.constructor, bind, gets, try_catch.
  change (workspaceState (initial (workspaceState s1))) with (workspaceState s1).
  rewrite Hws, HD.
  rewrite (constructor_match fs2 D files first rest _ Hdir Hm).
  destruct rest; simpl; by repeat split.
Qed.

Lemma persistence_round_trip_witness :
  exists s2 r it,
    DatabaseManager.constructor fs_example
      (initial (workspaceState
         (snd (DatabaseManager.chooseAndSetDatabase fs_example (Some [multi]) (initial ∅)))))
    = (Returned tt, s2) /\
    current s2 = Some r /\
    databases s2 = [r] /\
    heap s2 !! r = Some it /\
    fsPath (snapshotUri it) = "/snaps/multi" /\
    snapshotUri it = multi.
Proof.
  apply (persistence_round_trip fs_example fs_example (Some [multi]) multi
           (initial ∅) (Some multi)); reflexivity.
Defined.

(** ** Where the code departs from its description

    The search in [setCurrentUri] compares the database paths of the listed
    items with the path of the snapshot directory given, which is the
    parent of the database path of the item just constructed. *)

(** C1: starting from a manager without persisted selection, selecting
    [/snaps/myproj] and then [/snaps/myproj/], two different roots with the
    same database path [/snaps/myproj/db-cpp], leaves two items in the list,
    and the current one is the second. *)
Theorem same_databasePath_listed_twice :
  let s0 := snd (DatabaseManager.constructor fs_example (initial ∅)) in
  let s1 := snd (DatabaseTreeDataProvider.setCurrentUri fs_example myproj s0) in
  let s2 := snd (DatabaseTreeDataProvider.setCurrentUri fs_example myproj_slash s1) in
  myproj <> myproj_slash /\
  databases s1 = [0] /\ current s1 = Some 0 /\
  databases s2 = [0; 1] /\ current s2 = Some 1 /\
  (dbUri <$> heap s2 !! 0) = Some (Uri.file "/snaps/myproj/db-cpp") /\
  (dbUri <$> heap s2 !! 1) = Some (Uri.file "/snaps/myproj/db-cpp") /\
  (snapshotUri <$> heap s2 !! 0) = Some myproj /\
  (snapshotUri <$> heap s2 !! 1) = Some myproj_slash.
Proof.
  simpl. split; [discriminate|]. repeat split; reflexivity.
Qed.

(** C2: selecting [/snaps/myproj] twice in a row leaves two items for the
    database path [/snaps/myproj/db-cpp]; the current item is the first
    after the first call and the second after the second call. *)
Theorem setCurrentUri_twice_lists_twice :
  let s0 := snd (DatabaseManager.constructor fs_example (initial ∅)) in
  let s1 := snd (DatabaseTreeDataProvider.setCurrentUri fs_example myproj s0) in
  let s2 := snd (DatabaseTreeDataProvider.setCurrentUri fs_example myproj s1) in
  databases s0 = [] /\
  databases s1 = [0] /\ current s1 = Some 0 /\
  databases s2 = [0; 1] /\ current s2 = Some 1 /\
  (dbUri <$> heap s2 !! 0) = Some (Uri.file "/snaps/myproj/db-cpp") /\
  (dbUri <$> heap s2 !! 1) = Some (Uri.file "/snaps/myproj/db-cpp").
Proof.
  simpl. repeat split; reflexivity.
Qed.

(** C3: with nothing selected and the user choosing [/snaps/myproj],
    [chooseAndSetDatabase] and [getDatabaseDir] answer the chosen snapshot
    directory, while the database path of the item made current is
    [/snaps/myproj/db-cpp]; the next call of [getDatabaseDir] answers that
    database path. *)
Theorem prompt_returns_snapshot_directory :
  let s0 := snd (DatabaseManager.constructor fs_example (initial ∅)) in
  let asked := DatabaseManager.getDatabaseDir fs_example (Some [myproj]) s0 in
  let again := DatabaseManager.getDatabaseDir fs_example None (snd asked) in
  fst (DatabaseManager.chooseAndSetDatabase fs_example (Some [myproj]) s0)
  = Returned (Some (Uri.file "/snaps/myproj")) /\
  fst asked = Returned (Some (Uri.file "/snaps/myproj")) /\
  current (snd asked) = Some 0 /\
  (dbUri <$> heap (snd asked) !! 0) = Some (Uri.file "/snaps/myproj/db-cpp") /\
  fst again = Returned (Some (Uri.file "/snaps/myproj/db-cpp")).
Proof.
  simpl. repeat split; reflexivity.
Qed.

(** C4: with [/snaps/myproj] selected and persisted, choosing
    [/snaps/empty], which holds no database, leaves the list and the current
    item as they were and overwrites the persisted path with
    [/snaps/empty]. *)
Theorem rejected_choice_is_persisted :
  let s0 := snd (DatabaseManager.constructor fs_example (initial ∅)) in
  let s1 := snd (DatabaseManager.setCurrentDatabase fs_example myproj s0) in
  let chosen := DatabaseManager.chooseAndSetDatabase fs_example (Some [empty_snapshot]) s1 in
  DatabaseItem.constructor fs_example empty_snapshot s1
  = (Thrown (NoDatabaseError
               "/snaps/empty doesn't appear to be a valid snapshot directory."), s1) /\
  workspaceState s1 !! CURRENT_DB = Some "/snaps/myproj" /\
  fst chosen = Returned (Some empty_snapshot) /\
  databases (snd chosen) = databases s1 /\
  current (snd chosen) = current s1 /\
  workspaceState (snd chosen) !! CURRENT_DB = Some "/snaps/empty".
Proof.
  simpl. repeat split; reflexivity.
Qed.

(** * Further properties of the module *)

(** ** The construction of the manager *)

Lemma manager_constructor_cases fs ws :
  startup fs ws (DatabaseManager.constructor fs (initial ws)).
Proof.
  unfold DatabaseManager.constructor, bind, gets, try_catch.
  change (workspaceState (initial ws)) with ws.
  destruct (ws !! CURRENT_DB) as [db|] eqn:Hdb.
  - destruct (constructor_cases fs (Uri.file db) (initial ws))
      as [H|files H Hm|files first rest H Hm]; simpl in *.
    + by apply startup_unreadable.
    + by eapply startup_cleared.
    + destruct rest as [|second rest];
        exact (startup_restored fs ws db files first _ Hdb H Hm).
  - simpl. by apply startup_fresh.
Qed.

(** X1: A persisted path whose directory holds no database is forgotten: the
    manager starts with an empty list and nothing selected, shows the
    error, and removes the key from the workspace state, leaving the other
    keys alone. *)
Theorem manager_forgets_invalid_path fs ws db files :
  ws !! CURRENT_DB = Some db ->
  readdirSync fs db = Some files ->
  Forall (fun file => startsWith file "db-" = false) files ->
  exists s,
    DatabaseManager.constructor fs (initial ws) = (Returned tt, s) /\
    databases s = [] /\ current s = None /\ heap s = [] /\
    workspaceState s = delete CURRENT_DB ws /\
    workspaceState s !! CURRENT_DB = None /\
    effects s
    = [showErrorMessage (db +:+ " doesn't appear to be a valid snapshot directory.");
       createTreeView "qlDatabases"].
Proof.
  intros Hdb Hdir Hnone. apply dbMatches_none in Hnone.
  destruct (manager_constructor_cases fs ws) as
    [H0|db' H0 H1|db' files' H0 H1 H2|db' files' first rest H0 H1 H2];
    rewrite Hdb in H0; try discriminate; injection H0 as <-;
    rewrite Hdir in H1; try discriminate; injection H1 as <-.
  - eexists. split; [reflexivity|]. simpl. repeat split; try done.
    apply lookup_delete_eq.
  - congruence.
Qed.

Lemma manager_forgets_invalid_path_witness :
  exists s,
    DatabaseManager.constructor fs_example (initial {[ CURRENT_DB := "/snaps/empty" ]})
    = (Returned tt, s) /\
    current s = None /\ workspaceState s !! CURRENT_DB = None.
Proof.
  destruct (manager_forgets_invalid_path fs_example
              {[ CURRENT_DB := "/snaps/empty" ]} "/snaps/empty" ["readme.txt"])
    as (s & Hs & _ & Hcur & _ & _ & Hws & _).
  - reflexivity.
  - reflexivity.
  - repeat constructor.
  - exists s. by repeat split.
Defined.

(** X2: The construction of the manager throws exactly when a path is
    persisted and its directory cannot be listed; the error is the one of
    the file system and the workspace state is left as it was. *)
Theorem manager_constructor_throws fs ws :
  (exists e s, DatabaseManager.constructor fs (initial ws) = (Thrown e, s))
  <-> (exists db, ws !! CURRENT_DB = Some db /\ readdirSync fs db = None).
Proof.
  split.
  - intros (e & s & H).
    destruct (manager_constructor_cases fs ws) as
      [H0|db' H0 H1|db' files' H0 H1 H2|db' files' first rest H0 H1 H2];
      try discriminate.
    by exists db'.
  - intros (db & Hdb & Hdir).
    destruct (manager_constructor_cases fs ws) as
      [H0|db' H0 H1|db' files' H0 H1 H2|db' files' first rest H0 H1 H2];
      rewrite Hdb in H0; try discriminate; injection H0 as <-;
      rewrite Hdir in H1; try discriminate.
    by eexists _, _.
Qed.

Lemma manager_constructor_throws_witness :
  exists e s,
    DatabaseManager.constructor fs_example (initial {[ CURRENT_DB := "/nowhere" ]})
    = (Thrown e, s).
Proof.
  apply (manager_constructor_throws fs_example {[ CURRENT_DB := "/nowhere" ]}).
  exists "/nowhere". split; reflexivity.
Defined.

(** ** What every operation preserves

    A relation between the state before and the state after that holds
    across the four primitive steps holds across every call, returned or
    thrown. *)

Section Frame.

Variable R : State -> State -> Prop.
Hypothesis R_refl : forall s, R s s.
Hypothesis R_trans : forall a b c, R a b -> R b c -> R a c.
Hypothesis R_uri :
  forall fs dir s, R s (snd (DatabaseTreeDataProvider.setCurrentUri fs dir s)).
Hypothesis R_item :
  forall item s, R s (snd (DatabaseTreeDataProvider.setCurrentItem item s)).
Hypothesis R_update :
  forall v s, R s (snd (workspaceState_update CURRENT_DB v s)).
Hypothesis R_callback : forall fs s, R s (snd (run_callback fs s)).

Lemma frame_setCurrentDatabase fs db s :
  R s (snd (DatabaseManager.setCurrentDatabase fs db s)).
Proof.
  unfold DatabaseManager.setCurrentDatabase.
  destruct (negb _); [apply R_refl|].
  unfold bind.
  pose proof (R_uri fs db s) as H.
  destruct (DatabaseTreeDataProvider.setCurrentUri fs db s) as [[[]|e] s1];
    [|exact H].
  eapply R_trans; [exact H|]. apply R_update.
Qed.

Lemma frame_chooseAndSetDatabase fs dialog s :
  R s (snd (DatabaseManager.chooseAndSetDatabase fs dialog s)).
Proof.
  unfold DatabaseManager.chooseAndSetDatabase, bind.
  destruct (chooseDatabaseDir dialog) as [db|]; [|apply R_refl].
  pose proof (frame_setCurrentDatabase fs db s) as H.
  destruct (DatabaseManager.setCurrentDatabase fs db s) as [[[]|e] s1]; exact H.
Qed.

Lemma frame_getDatabaseDir fs dialog s :
  R s (snd (DatabaseManager.getDatabaseDir fs dialog s)).
Proof.
  unfold DatabaseManager.getDatabaseDir, bind.
  unfold DatabaseTreeDataProvider.getCurrent, gets.
  destruct (current s) as [db|].
  - unfold deref. destruct (heap s !! db); apply R_refl.
  - apply frame_chooseAndSetDatabase.
Qed.

Lemma frame_perform c s : R s (perform c s).
Proof.
  destruct c; simpl.
  - apply R_uri.
  - apply R_item.
  - apply frame_setCurrentDatabase.
  - apply frame_chooseAndSetDatabase.
  - apply frame_getDatabaseDir.
  - apply R_callback.
Qed.

End Frame.

Lemma run_callback_cases fs s :
  (pending s = [] /\ run_callback fs s = (Returned tt, s))
  \/ (exists this rest, pending s = this :: rest /\ heap s !! this = None /\
        run_callback fs s = (Returned tt, set_pending (fun _ => rest) s))
  \/ (exists this rest it,
        pending s = this :: rest /\ heap s !! this = Some it /\
        run_callback fs s
        = (Returned tt,
           if exists_ fs (path.join (fsPath (snapshotUri it)) "src") then
             set_heap <[this := set_srcRoot
                          (Some (Uri.file (path.join (fsPath (snapshotUri it)) "src")))
                          it]>
               (set_pending (fun _ => rest) s)
           else
             set_heap <[this := set_srcRoot None it]>
               (set_effects (fun es => es ++
                  [console_log ("Could not determine source root for database "
                                +:+ Uri.toString (snapshotUri it)
                                +:+ ". Assuming paths are absolute.")])
                  (set_pending (fun _ => rest) s)))).
Proof.
  unfold run_callback, bind, gets.
  destruct (pending s) as [|this rest] eqn:Hp; [by left|right].
  unfold DatabaseItem.exists_callback, bind, gets, modify. simpl.
  destruct (heap s !! this) as [it|] eqn:Hit.
  - right. exists this, rest, it. split; [done|]. split; [done|].
    destruct (exists_ fs (path.join (fsPath (snapshotUri it)) "src")); reflexivity.
  - left. by exists this, rest.
Qed.

(** X3: The list of databases only grows, at its end: whatever is called, the
    list before is a prefix of the list after.  No operation removes or
    reorders items. *)
Theorem databases_only_grow c s :
  databases s `prefix_of` databases (perform c s).
Proof.
  apply (frame_perform (fun a b => databases a `prefix_of` databases b)).
  - done.
  - intros a b d H1 H2. by etrans.
  - intros fs dir s0.
    destruct (setCurrentUri_cases fs dir s0); simpl; try done.
    by apply prefix_app_r.
  - done.
  - done.
  - intros fs s0.
    destruct (run_callback_cases fs s0) as
      [[_ ->]|[(this & rest & _ & _ & ->)|(this & rest & it & _ & _ & ->)]];
      simpl; try done.
    by destruct (exists_ fs _).
Qed.

(** X4: An object of the store stays where it is and keeps its snapshot
    directory, its database directory and its name, whatever is called;
    only the source root is written after construction. *)
Theorem items_keep_identity c s r it :
  heap s !! r = Some it ->
  exists it', heap (perform c s) !! r = Some it' /\ same_identity it it'.
Proof.
  revert r it.
  apply (frame_perform (fun a b => forall r it, heap a !! r = Some it ->
           exists it', heap b !! r = Some it' /\ same_identity it it')).
  - intros s0 r it H. by exists it.
  - intros a b d H1 H2 r it H.
    destruct (H1 r it H) as (it1 & Hb & I1 & I2 & I3).
    destruct (H2 r it1 Hb) as (it2 & Hd & J1 & J2 & J3).
    exists it2. split; [done|]. repeat split; congruence.
  - intros fs dir s0 r it H.
    destruct (setCurrentUri_cases fs dir s0); simpl;
      exists it; (split; [|done]); try done;
      by apply lookup_app_l_Some.
  - intros item s0 r it H. by exists it.
  - intros v s0 r it H. by exists it.
  - intros fs s0 r it H.
    destruct (run_callback_cases fs s0) as
      [[_ ->]|[(this & rest & _ & _ & ->)|(this & rest & it0 & _ & Hthis & ->)]];
      simpl; try by exists it.
    destruct (decide (r = this)) as [->|Hne].
    + assert (Some it = Some it0) as [= <-] by (rewrite <- H; exact Hthis).
      destruct (exists_ fs _); simpl;
        (eexists; split;
         [apply list_lookup_insert_eq; by eapply lookup_lt_Some|done]).
    + exists it. split; [|done].
      destruct (exists_ fs _); simpl; by rewrite list_lookup_insert_ne.
Qed.

Lemma items_keep_identity_witness :
  exists it',
    heap (perform (Call_callback fs_example)
            (perform (Call_setCurrentUri fs_example myproj) (initial ∅))) !! 0
    = Some it' /\
    same_identity (newItem myproj "db-cpp") it'.
Proof.
  apply (items_keep_identity (Call_callback fs_example)
           (perform (Call_setCurrentUri fs_example myproj) (initial ∅)) 0).
  reflexivity.
Defined.

(** X5: The only key of the workspace state that the module writes is
    [currentDatabase]: every other key reads the same after any call. *)
Theorem other_keys_untouched c s k :
  k <> CURRENT_DB ->
  workspaceState (perform c s) !! k = workspaceState s !! k.
Proof.
  intros Hk.
  apply (frame_perform (fun a b => workspaceState b !! k = workspaceState a !! k)).
  - done.
  - intros a b d H1 H2. congruence.
  - intros fs dir s0. by destruct (setCurrentUri_cases fs dir s0).
  - done.
  - intros [v|] s0; simpl.
    + by apply lookup_insert_ne.
    + by apply lookup_delete_ne.
  - intros fs s0.
    destruct (run_callback_cases fs s0) as
      [[_ ->]|[(this & rest & _ & _ & ->)|(this & rest & it & _ & _ & ->)]];
      simpl; try done.
    by destruct (exists_ fs _).
Qed.

Lemma other_keys_untouched_witness :
  workspaceState
    (perform (Call_setCurrentDatabase fs_example myproj)
       (initial {[ "theme" := "dark" ]})) !! "theme"
  = Some "dark".
Proof.
  rewrite (other_keys_untouched (Call_setCurrentDatabase fs_example myproj)
             (initial {[ "theme" := "dark" ]}) "theme"); [reflexivity|discriminate].
Defined.

(** ** Invariants of the states a session reaches *)

Lemma reachable_invariant (I : State -> Prop) :
  (forall fs ws s,
     DatabaseManager.constructor fs (initial ws) = (Returned tt, s) -> I s) ->
  (forall fs dir s, I s -> I (snd (DatabaseTreeDataProvider.setCurrentUri fs dir s))) ->
  (forall item s, I s -> I (snd (DatabaseTreeDataProvider.setCurrentItem item s))) ->
  (forall v s, I s -> I (snd (workspaceState_update CURRENT_DB v s))) ->
  (forall fs s, I s -> I (snd (run_callback fs s))) ->
  forall s, reachable s -> I s.
Proof.
  intros Hinit Huri Hitem Hupd Hcb s Hreach.
  induction Hreach as [fs ws s H|c s Hreach IH _]; [by eapply Hinit|].
  revert IH. apply (frame_perform (fun a b => I a -> I b)); auto.
Qed.

Lemma dbMatches_head files first rest :
  dbMatches files = first :: rest -> startsWith first "db-" = true.
Proof.
  intros H.
  assert (Hin : In first (dbMatches files)) by (rewrite H; by left).
  apply List.filter_In in Hin. tauto.
Qed.

Lemma item_ok_newItem uri files first rest :
  dbMatches files = first :: rest -> item_ok (newItem uri first).
Proof.
  intros H. split; [done|]. split; [done|].
  exists first. split; [by eapply dbMatches_head|done].
Qed.

Lemma item_ok_set_srcRoot v it : item_ok it -> item_ok (set_srcRoot v it).
Proof. by intros H. Qed.

(** X6: In every state a session reaches, each object of the store is as the
    constructor made it: its database directory is a file uri, the join of
    its snapshot directory with a child named [db-...], and its name is
    the last segment of the snapshot directory. *)
Theorem reachable_items_ok s it :
  reachable s -> it ∈ heap s -> item_ok it.
Proof.
  intros Hreach. revert it. change (forall it, it ∈ heap s -> item_ok it).
  rewrite <- Forall_forall. revert s Hreach.
  apply (reachable_invariant (fun s => Forall item_ok (heap s))).
  - intros fs ws s Hs.
    destruct (manager_constructor_cases fs ws) as
      [H0|db' H0 H1|db' files' H0 H1 H2|db' files' first rest H0 H1 H2];
      try discriminate; injection Hs as <-; simpl; try by constructor.
    constructor; [by eapply item_ok_newItem|constructor].
  - intros fs dir s H.
    destruct (setCurrentUri_cases fs dir s) as
      [H0|files H0 Hm|files first rest H0 Hm Hall|files first rest ix existing H0 Hm Hix Hx Hall];
      simpl; try done;
      (apply Forall_app; split; [done|]);
      (constructor; [by eapply item_ok_newItem|constructor]).
  - done.
  - done.
  - intros fs s H.
    destruct (run_callback_cases fs s) as
      [[_ ->]|[(this & rest & _ & _ & ->)|(this & rest & it0 & _ & Hthis & ->)]];
      simpl; try done.
    assert (Hit : item_ok it0).
    { rewrite Forall_forall in H. apply H. by eapply list_elem_of_lookup_2. }
    destruct (exists_ fs _); simpl; by apply Forall_insert.
Qed.

Lemma reachable_items_ok_witness :
  item_ok (newItem multi "db-java").
Proof.
  apply (reachable_items_ok
           (perform (Call_setCurrentUri fs_example multi)
              (snd (DatabaseManager.constructor fs_example (initial ∅))))).
  - apply reachable_call; [|exact I].
    by apply (reachable_init fs_example ∅).
  - vm_compute. left.
Defined.

Lemma unresolved_after_construction uri first rest s :
  pending_unresolved s -> pending_unresolved (constructed uri first rest s).
Proof.
  intros [Hnd Hp]. split; simpl.
  - apply NoDup_app. split; [done|]. split; [|apply NoDup_singleton].
    intros r Hr ->%list_elem_of_singleton.
    destruct (Hp _ Hr) as (it & Hit & _).
    apply lookup_lt_Some in Hit. lia.
  - intros r [Hr| ->%list_elem_of_singleton]%elem_of_app.
    + destruct (Hp _ Hr) as (it & Hit & Hsrc).
      exists it. split; [by apply lookup_app_l_Some|done].
    + exists (newItem uri first). split; [|done].
      by rewrite lookup_app_r, Nat.sub_diag.
Qed.

(** X7: In every state a session reaches, the items whose [fs.exists] callback
    is still to run are distinct objects of the store, each waiting once,
    and their source root is still undefined. *)
Theorem reachable_pending_unresolved s :
  reachable s -> pending_unresolved s.
Proof.
  revert s. apply (reachable_invariant pending_unresolved).
  - intros fs ws s Hs.
    destruct (manager_constructor_cases fs ws) as
      [H0|db' H0 H1|db' files' H0 H1 H2|db' files' first rest H0 H1 H2];
      try discriminate; injection Hs as <-; (split; simpl).
    + constructor.
    + by intros r ?%elem_of_nil.
    + constructor.
    + by intros r ?%elem_of_nil.
    + apply NoDup_singleton.
    + intros r ->%list_elem_of_singleton. by eexists.
  - intros fs dir s H.
    destruct (setCurrentUri_cases fs dir s) as
      [H0|files H0 Hm|files first rest H0 Hm Hall|files first rest ix existing H0 Hm Hix Hx Hall];
      try done;
      apply (unresolved_after_construction dir first rest s H).
  - done.
  - done.
  - intros fs s [Hnd Hp].
    destruct (run_callback_cases fs s) as
      [[_ ->]|[(this & rest & Hq & _ & ->)|(this & rest & it0 & Hq & Hthis & ->)]];
      try done; rewrite Hq in Hnd, Hp; apply NoDup_cons in Hnd as [Hnotin Hnd].
    + split; simpl; [done|]. intros r Hr. apply Hp. by right.
    + assert (Hrest : forall r, r ∈ rest ->
                exists it, heap s !! r = Some it /\ srcRoot it = None /\ r <> this).
      { intros r Hr. destruct (Hp r) as (it & Hit & Hsrc); [by right|].
        exists it. repeat split; try done. by intros ->. }
      destruct (exists_ fs _); (split; simpl; [done|]);
        intros r Hr; destruct (Hrest r Hr) as (it & Hit & Hsrc & Hne);
        exists it; (split; [|done]); by rewrite list_lookup_insert_ne.
Qed.

Lemma reachable_pending_unresolved_witness :
  pending_unresolved
    (perform (Call_setCurrentUri fs_example myproj)
       (snd (DatabaseManager.constructor fs_example (initial ∅)))).
Proof.
  apply reachable_pending_unresolved.
  apply reachable_call; [|exact I].
  by apply (reachable_init fs_example ∅).
Defined.

(** ** The tree view *)

Lemma reachable_listed_distinct s :
  reachable s -> listed_allocated s /\ NoDup (databases s).
Proof.
  revert s.
  apply (reachable_invariant (fun s => listed_allocated s /\ NoDup (databases s))).
  - intros fs ws s Hs. split; [by eapply allocated_constructor|].
    destruct (manager_constructor_cases fs ws) as
      [H0|db' H0 H1|db' files' H0 H1 H2|db' files' first rest H0 H1 H2];
      try discriminate; injection Hs as <-; simpl;
      try apply NoDup_nil_2; apply NoDup_singleton.
  - intros fs dir s [Ha Hnd]. split; [by apply allocated_setCurrentUri|].
    destruct (setCurrentUri_cases fs dir s) as
      [H0|files H0 Hm|files first rest H0 Hm Hall|files first rest ix existing H0 Hm Hix Hx Hall];
      simpl; try done.
    apply NoDup_app. split; [done|]. split; [|apply NoDup_singleton].
    intros r Hr ->%list_elem_of_singleton. specialize (Ha _ Hr). lia.
  - done.
  - done.
  - intros fs s [Ha Hnd]. split; [by apply allocated_callback|].
    destruct (run_callback_cases fs s) as
      [[_ ->]|[(this & rest & _ & _ & ->)|(this & rest & it0 & _ & _ & ->)]];
      simpl; try done.
    by destruct (exists_ fs _).
Qed.

Lemma filter_absent (l : list ref) (x : ref) :
  x ∉ l -> List.filter (fun r => bool_decide (Some r = Some x)) l = [].
Proof.
  induction l as [|a l IH]; [done|].
  intros Hx. apply not_elem_of_cons in Hx as [Hne Hx]. simpl.
  rewrite bool_decide_eq_false_2 by congruence. by apply IH.
Qed.

Lemma count_selected (l : list ref) (x : ref) :
  NoDup l -> x ∈ l ->
  length (List.filter (fun r => bool_decide (Some r = Some x)) l) = 1.
Proof.
  induction 1 as [|a l Hnotin Hnd IH]; [by intros ?%elem_of_nil|].
  intros Hx. simpl. destruct (decide (a = x)) as [->|Hne].
  - rewrite bool_decide_eq_true_2 by done. simpl.
    by rewrite filter_absent.
  - rewrite bool_decide_eq_false_2 by congruence.
    apply IH. apply elem_of_cons in Hx as [->|Hx]; [done|exact Hx].
Qed.

(** X8: In every state a session reaches, the tree items of the listed
    databases have their name as label and their snapshot directory as
    tooltip, the icon of the selected database is on the item that is the
    current one and on no other, and so exactly one child of the root
    carries it when a database is selected, none otherwise. *)
Theorem one_item_shows_selected extensionPath s :
  reachable s ->
  (forall r, r ∈ DatabaseTreeDataProvider.getChildren None s ->
     exists it,
       heap s !! r = Some it /\
       DatabaseTreeDataProvider.getTreeItem extensionPath r s
       = Some {| label := name it;
                 iconPath := if bool_decide (current s = Some r)
                             then Some (joinThemableIconPath extensionPath
                                          SELECTED_DATABASE_ICON)
                             else None;
                 tooltip := fsPath (snapshotUri it) |})
  /\ length (List.filter (showsSelected extensionPath s)
               (DatabaseTreeDataProvider.getChildren None s))
     = match current s with Some _ => 1 | None => 0 end.
Proof.
  intros Hreach.
  destruct (reachable_listed_distinct s Hreach) as [Halloc Hnd].
  pose proof (reachable_current_in_databases s Hreach) as Hcur.
  assert (Hitem : forall r, r ∈ databases s ->
            exists it, heap s !! r = Some it /\
              DatabaseTreeDataProvider.getTreeItem extensionPath r s
              = Some {| label := name it;
                        iconPath := if bool_decide (current s = Some r)
                                    then Some (joinThemableIconPath extensionPath
                                                 SELECTED_DATABASE_ICON)
                                    else None;
                        tooltip := fsPath (snapshotUri it) |}).
  { intros r Hr. destruct (lookup_lt_is_Some_2 (heap s) r (Halloc r Hr)) as [it Hit].
    exists it. split; [done|].
    unfold DatabaseTreeDataProvider.getTreeItem, ref in *. rewrite Hit. simpl.
    do 2 f_equal.
    destruct (decide (current s = Some r)) as [Heq|Hne].
    - rewrite !bool_decide_eq_true_2; done.
    - rewrite !bool_decide_eq_false_2; done. }
  split; [exact Hitem|]. simpl.
  assert (Hext : forall r, In r (databases s) ->
            showsSelected extensionPath s r = bool_decide (Some r = current s)).
  { intros r Hr%list_elem_of_In. destruct (Hitem r Hr) as (it & _ & Hti).
    unfold showsSelected. rewrite Hti. simpl.
    destruct (decide (current s = Some r)) as [Heq|Hne].
    - rewrite !bool_decide_eq_true_2; done.
    - rewrite !bool_decide_eq_false_2; done. }
  rewrite (List.filter_ext_in _ _ _ Hext).
  destruct (current s) as [x|] eqn:Hx.
  - apply count_selected; [done|]. by apply Hcur.
  - clear Hitem Hext Hnd Halloc Hcur.
    induction (databases s) as [|a l IH]; [done|]. simpl. exact IH.
Qed.

Lemma one_item_shows_selected_witness :
  length (List.filter
            (showsSelected "/ext"
               (perform (Call_setCurrentUri fs_example myproj)
                  (perform (Call_setCurrentUri fs_example myproj)
                     (snd (DatabaseManager.constructor fs_example (initial ∅))))))
            [0; 1])
  = 1.
Proof.
  refine (proj2 (one_item_shows_selected "/ext"
           (perform (Call_setCurrentUri fs_example myproj)
              (perform (Call_setCurrentUri fs_example myproj)
                 (snd (DatabaseManager.constructor fs_example (initial ∅))))) _)).
  apply reachable_call; [|exact I].
  apply reachable_call; [|exact I].
  by apply (reachable_init fs_example ∅).
Defined.

(** ** The source root *)

(** X9: When the oldest waiting callback runs for an allocated item, the item's
    source root becomes the [src] child of its snapshot directory if that
    child exists and stays undefined, with a line on the console, if not.
    The item leaves the queue; every other object, the list, the current
    item and the workspace state are as before. *)
Theorem callback_resolves_srcRoot fs s this rest it :
  pending s = this :: rest ->
  heap s !! this = Some it ->
  exists s',
    run_callback fs s = (Returned tt, s') /\
    pending s' = rest /\
    heap s' !! this
    = Some (set_srcRoot
              (if exists_ fs (path.join (fsPath (snapshotUri it)) "src")
               then Some (Uri.file (path.join (fsPath (snapshotUri it)) "src"))
               else None) it) /\
    (forall r, r <> this -> heap s' !! r = heap s !! r) /\
    databases s' = databases s /\ current s' = current s /\
    workspaceState s' = workspaceState s /\
    effects s'
    = effects s ++
      (if exists_ fs (path.join (fsPath (snapshotUri it)) "src") then []
       else [console_log ("Could not determine source root for database "
                          +:+ Uri.toString (snapshotUri it)
                          +:+ ". Assuming paths are absolute.")]).
Proof.
  intros Hq Hthis.
  destruct (run_callback_cases fs s) as
    [[Hnil _]|[(this' & rest' & Hq' & Hnone & _)|(this' & rest' & it' & Hq' & Hthis' & Hrun)]].
  - rewrite Hq in Hnil. discriminate.
  - rewrite Hq in Hq'. injection Hq' as <- <-.
    assert (Some it = None) by (rewrite <- Hthis; exact Hnone). discriminate.
  - rewrite Hq in Hq'. injection Hq' as <- <-.
    assert (Some it = Some it') as [= <-] by (rewrite <- Hthis; exact Hthis').
    eexists. split; [exact Hrun|].
    pose proof (lookup_lt_Some _ _ _ Hthis) as Hlt.
    destruct (exists_ fs (path.join (fsPath (snapshotUri it)) "src")); simpl;
      (split; [done|]);
      (split; [by apply list_lookup_insert_eq|]);
      (split; [intros r Hr; by apply list_lookup_insert_ne|]);
      repeat split; try done.
    by rewrite app_nil_r.
Qed.

Lemma callback_resolves_srcRoot_witness :
  exists s',
    run_callback fs_example
      (perform (Call_setCurrentUri fs_example myproj) (initial ∅))
    = (Returned tt, s') /\
    pending s' = [] /\
    (srcRoot <$> heap s' !! 0) = Some (Some (Uri.file "/snaps/myproj/src")).
Proof.
  destruct (callback_resolves_srcRoot fs_example
              (perform (Call_setCurrentUri fs_example myproj) (initial ∅))
              0 [] (newItem myproj "db-cpp") eq_refl eq_refl)
    as (s' & Hrun & Hp & Hh & _).
  exists s'. split; [exact Hrun|]. split; [exact Hp|].
  exact (f_equal (fmap srcRoot) Hh).
Defined.

(** ** Asking for the database directory *)

(** X10: In a state a session reaches with a database selected,
    [getDatabaseDir] answers the database directory of the current item;
    it neither consults the dialog nor the file system, does not throw and
    changes nothing. *)
Theorem getDatabaseDir_selected s r :
  reachable s ->
  current s = Some r ->
  exists it,
    heap s !! r = Some it /\
    forall fs dialog,
      DatabaseManager.getDatabaseDir fs dialog s = (Returned (Some (dbUri it)), s).
Proof.
  intros Hreach Hcur.
  destruct (reachable_current_allocated s r Hreach Hcur) as [it Hit].
  exists it. split; [done|]. intros fs dialog.
  unfold DatabaseManager.getDatabaseDir, bind.
  unfold DatabaseTreeDataProvider.getCurrent, gets. rewrite Hcur.
  unfold deref, ref in *. by rewrite Hit.
Qed.

Lemma getDatabaseDir_selected_witness :
  exists it,
    heap (perform (Call_setCurrentUri fs_example multi)
            (snd (DatabaseManager.constructor fs_example (initial ∅)))) !! 0
    = Some it /\
    forall fs dialog,
      DatabaseManager.getDatabaseDir fs dialog
        (perform (Call_setCurrentUri fs_example multi)
           (snd (DatabaseManager.constructor fs_example (initial ∅))))
      = (Returned (Some (dbUri it)),
         perform (Call_setCurrentUri fs_example multi)
           (snd (DatabaseManager.constructor fs_example (initial ∅)))).
Proof.
  apply (getDatabaseDir_selected
           (perform (Call_setCurrentUri fs_example multi)
              (snd (DatabaseManager.constructor fs_example (initial ∅)))) 0).
  - apply reachable_call; [|exact I].
    by apply (reachable_init fs_example ∅).
  - reflexivity.
Defined.

(** X11: When the user cancels the dialog, or the dialog answers no uri,
    [chooseAndSetDatabase] answers undefined and changes nothing, and so
    does [getDatabaseDir] when no database is selected. *)
Theorem cancelled_dialog_changes_nothing fs dialog s :
  chooseDatabaseDir dialog = None ->
  DatabaseManager.chooseAndSetDatabase fs dialog s = (Returned None, s)
  /\ (current s = None ->
      DatabaseManager.getDatabaseDir fs dialog s = (Returned None, s))
  /\ DatabaseManager.chooseAndSetDatabaseSync fs dialog s = (Returned tt, s).
Proof.
  intros Hd.
  assert (H : DatabaseManager.chooseAndSetDatabase fs dialog s = (Returned None, s)).
  { unfold DatabaseManager.chooseAndSetDatabase, bind. by rewrite Hd. }
  split; [exact H|]. split.
  - intros Hcur. unfold DatabaseManager.getDatabaseDir, bind.
    unfold DatabaseTreeDataProvider.getCurrent, gets. by rewrite Hcur.
  - unfold DatabaseManager.chooseAndSetDatabaseSync, try_catch, bind.
    by rewrite H.
Qed.

Lemma cancelled_dialog_changes_nothing_witness :
  DatabaseManager.chooseAndSetDatabase fs_example (Some []) (initial ∅)
  = (Returned None, initial ∅).
Proof.
  exact (proj1 (cancelled_dialog_changes_nothing fs_example (Some []) (initial ∅)
                  eq_refl)).
Defined.

(** X12: [chooseAndSetDatabaseSync] never throws: when [chooseAndSetDatabase]
    returns, the state is the one it reached, and when it throws, the error
    is written to the console in the state in which it was thrown. *)
Theorem chooseAndSetDatabaseSync_never_throws fs dialog s :
  fst (DatabaseManager.chooseAndSetDatabaseSync fs dialog s) = Returned tt
  /\ snd (DatabaseManager.chooseAndSetDatabaseSync fs dialog s)
     = match DatabaseManager.chooseAndSetDatabase fs dialog s with
       | (Returned _, s1) => s1
       | (Thrown e, s1) => set_effects (fun es => es ++ [console_error e]) s1
       end.
Proof.
  unfold DatabaseManager.chooseAndSetDatabaseSync, try_catch, bind.
  by destruct (DatabaseManager.chooseAndSetDatabase fs dialog s) as [[v|e] s1].
Qed.

(** ** Construction and selection, in general *)

(** X13: A construction touches neither the list, nor the current item, nor the
    workspace state, and sends no change notification.  When it throws it
    leaves the state as it was; when it returns, the address it answers was
    free before, the store has grown by the new object at that address and
    one callback for it waits at the end of the queue. *)
Theorem constructor_frame fs uri s o s1 :
  DatabaseItem.constructor fs uri s = (o, s1) ->
  databases s1 = databases s /\ current s1 = current s /\
  workspaceState s1 = workspaceState s /\ fires s1 = fires s /\
  match o with
  | Thrown _ => s1 = s
  | Returned this =>
      heap s !! this = None /\
      exists it,
        heap s1 = heap s ++ [it] /\ heap s1 !! this = Some it /\
        snapshotUri it = uri /\ srcRoot it = None /\
        pending s1 = pending s ++ [this]
  end.
Proof.
  intros H.
  destruct (constructor_cases fs uri s) as [H0|files H0 Hm|files first rest H0 Hm];
    injection H as <- <-; try done.
  repeat split; try done.
  - apply fires_constructed.
  - by apply lookup_ge_None_2.
  - exists (newItem uri first). repeat split.
    simpl. by rewrite lookup_app_r, Nat.sub_diag.
Qed.

Lemma constructor_frame_witness :
  databases (snd (DatabaseItem.constructor fs_example multi (initial ∅))) = [] /\
  current (snd (DatabaseItem.constructor fs_example multi (initial ∅))) = None.
Proof.
  destruct (constructor_frame fs_example multi (initial ∅) _ _ eq_refl)
    as (Hd & Hc & _).
  split; [exact Hd|exact Hc].
Defined.

(** X14: [setCurrentUri] throws exactly when the directory cannot be listed; the
    error is the one of the file system and the state is as it was. *)
Theorem setCurrentUri_throws fs dir s :
  ((exists e s', DatabaseTreeDataProvider.setCurrentUri fs dir s = (Thrown e, s'))
   <-> readdirSync fs (fsPath dir) = None)
  /\ (readdirSync fs (fsPath dir) = None ->
      DatabaseTreeDataProvider.setCurrentUri fs dir s
      = (Thrown (SystemError "scandir" (fsPath dir)), s)).
Proof.
  assert (Hthrow : readdirSync fs (fsPath dir) = None ->
            DatabaseTreeDataProvider.setCurrentUri fs dir s
            = (Thrown (SystemError "scandir" (fsPath dir)), s)).
  { intros H. unfold DatabaseTreeDataProvider.setCurrentUri.
    by rewrite (constructor_unreadable _ _ _ H). }
  split; [split|exact Hthrow].
  - intros (e & s' & H).
    destruct (setCurrentUri_cases fs dir s); try done; discriminate.
  - intros H. eexists _, _. by apply Hthrow.
Qed.

Lemma setCurrentUri_throws_witness :
  DatabaseTreeDataProvider.setCurrentUri fs_example (Uri.file "/nowhere") (initial ∅)
  = (Thrown (SystemError "scandir" "/nowhere"), initial ∅).
Proof.
  exact (proj2 (setCurrentUri_throws fs_example (Uri.file "/nowhere") (initial ∅))
           eq_refl).
Defined.

Lemma sameDb_old h x dir r :
  r < length h ->
  DatabaseTreeDataProvider.sameDb (h ++ [x]) dir r
  = DatabaseTreeDataProvider.sameDb h dir r.
Proof.
  intros Hr. unfold DatabaseTreeDataProvider.sameDb.
  by rewrite lookup_app_l.
Qed.

Lemma sameDb_true h dir r :
  DatabaseTreeDataProvider.sameDb h dir r = true
  <-> exists it, h !! r = Some it /\ fsPath (dbUri it) = fsPath dir.
Proof.
  unfold DatabaseTreeDataProvider.sameDb. unfold ref in *.
  destruct (h !! r) as [it|].
  - rewrite String.eqb_eq. split; [by exists it|].
    by intros (it' & [= <-] & H).
  - split; [done|]. by intros (it' & ? & _).
Qed.

(** X15: On a directory that validates, in a state whose listed items are
    allocated, [setCurrentUri] returns after one change notification and
    does one of two things.  If no listed item has the given path as the
    path of its database directory, the new object is appended to the list
    and becomes current.  Otherwise the list is unchanged and the first
    listed item that has it becomes current. *)
Theorem setCurrentUri_appends_or_reuses fs dir s :
  validates fs dir = true ->
  listed_allocated s ->
  exists s',
    DatabaseTreeDataProvider.setCurrentUri fs dir s = (Returned tt, s') /\
    fires s' = S (fires s) /\
    ((Forall (fun r => forall it, heap s !! r = Some it ->
                fsPath (dbUri it) <> fsPath dir) (databases s) /\
      databases s' = databases s ++ [length (heap s)] /\
      current s' = Some (length (heap s)) /\
      (snapshotUri <$> heap s' !! length (heap s)) = Some dir)
     \/
     (exists ix existing it,
        databases s !! ix = Some existing /\
        heap s !! existing = Some it /\
        fsPath (dbUri it) = fsPath dir /\
        Forall (fun r => forall it', heap s !! r = Some it' ->
                  fsPath (dbUri it') <> fsPath dir) (take ix (databases s)) /\
        databases s' = databases s /\
        current s' = Some existing)).
Proof.
  intros Hvalid Halloc.
  destruct (validates_matches fs dir Hvalid) as (files & first & rest & Hdir & Hm).
  assert (Hnot : forall l,
            (forall r, r ∈ l -> r < length (heap s)) ->
            Forall (fun it0 => DatabaseTreeDataProvider.sameDb
                                 (heap (constructed dir first rest s)) dir it0 = false) l ->
            Forall (fun r => forall it, heap s !! r = Some it ->
                      fsPath (dbUri it) <> fsPath dir) l).
  { intros l Hl Hall. rewrite Forall_forall in Hall. apply Forall_forall.
    intros r Hr it Hit Heq.
    specialize (Hall r Hr). simpl in Hall.
    rewrite sameDb_old in Hall by (by apply Hl).
    assert (DatabaseTreeDataProvider.sameDb (heap s) dir r = true) as Ht
      by (apply sameDb_true; by exists it).
    congruence. }
  destruct (setCurrentUri_cases fs dir s) as
    [H0|files' H0 Hm'|files' first' rest' H0 Hm' Hall
     |files' first' rest' ix existing H0 Hm' Hix Hx Hall];
    rewrite Hdir in H0; try discriminate; injection H0 as <-;
    rewrite Hm in Hm'; try discriminate; injection Hm' as <- <-.
  - exists (snd (DatabaseTreeDataProvider.setCurrentItem (length (heap s))
                   (set_databases (fun dbs => dbs ++ [length (heap s)])
                      (constructed dir first rest s)))).
    split; [reflexivity|]. split.
    { rewrite fires_setCurrentItem. f_equal. apply (fires_constructed dir first rest s). }
    left. split; [by apply Hnot|]. repeat split.
    simpl. by rewrite lookup_app_r, Nat.sub_diag.
  - exists (snd (DatabaseTreeDataProvider.setCurrentItem existing
                   (constructed dir first rest s))).
    split; [reflexivity|]. split.
    { rewrite fires_setCurrentItem. f_equal. apply (fires_constructed dir first rest s). }
    right.
    assert (Hlisted : existing ∈ databases s) by (by eapply list_elem_of_lookup_2).
    simpl in Hx. rewrite sameDb_old in Hx by (by apply Halloc).
    apply sameDb_true in Hx as (it & Hit & Heq).
    exists ix, existing, it. repeat split; try done.
    apply Hnot; [|done].
    intros r Hr. apply Halloc.
    apply elem_of_take in Hr as (i & Hi & _). by eapply list_elem_of_lookup_2.
Qed.

Lemma setCurrentUri_appends_or_reuses_witness :
  exists s',
    DatabaseTreeDataProvider.setCurrentUri fs_example multi (initial ∅)
    = (Returned tt, s') /\ fires s' = 1.
Proof.
  destruct (setCurrentUri_appends_or_reuses fs_example multi (initial ∅))
    as (s' & Hs & Hf & _).
  - reflexivity.
  - by intros r ?%elem_of_nil.
  - exists s'. split; [exact Hs|exact Hf].
Defined.

Example setCurrentUri_reuses_listed_item :
  let s1 := snd (DatabaseTreeDataProvider.setCurrentUri fs_nested myproj (initial ∅)) in
  let s2 := snd (DatabaseTreeDataProvider.setCurrentUri fs_nested
                   (Uri.file "/snaps/myproj/db-cpp") s1) in
  databases s1 = [0] /\ databases s2 = [0] /\ current s2 = Some 0 /\
  length (heap s2) = 2 /\ fires s2 = 2.
Proof. simpl. repeat split; reflexivity. Qed.

(** ** What is persisted *)

(** X16: [setCurrentDatabase] writes the workspace state exactly when it
    returns: then the scheme is [file], the directory could be listed, and
    the key holds the path given, whether or not the directory was accepted
    as a database.  When it throws, the whole state is as it was. *)
Theorem setCurrentDatabase_writes_on_return fs db s :
  (forall e s',
     DatabaseManager.setCurrentDatabase fs db s = (Thrown e, s') -> s' = s)
  /\ (forall s',
        DatabaseManager.setCurrentDatabase fs db s = (Returned tt, s') ->
        scheme db = "file" /\
        readdirSync fs (fsPath db) <> None /\
        workspaceState s'
        = <[CURRENT_DB := fsPath db]> (workspaceState s))
  /\ (scheme db = "file" -> readdirSync fs (fsPath db) <> None ->
      exists s', DatabaseManager.setCurrentDatabase fs db s = (Returned tt, s')).
Proof.
  unfold DatabaseManager.setCurrentDatabase.
  destruct (String.eqb_spec (scheme db) "file") as [Heq|Hne]; simpl.
  - unfold bind.
    destruct (setCurrentUri_cases fs db s) as
      [H0|files H0 Hm|files first rest H0 Hm Hall|files first rest ix existing H0 Hm Hix Hx Hall];
      simpl; (split; [|split]); try done;
      try (intros e s' [= _ <-]; done);
      try (intros _ _; by eexists);
      (intros s' [= <-]; split; [done|]; split; [congruence|done]).
  - split; [|split]; try done.
    intros e s' [= _ <-]. done.
Qed.

Lemma setCurrentDatabase_writes_on_return_witness :
  workspaceState
    (snd (DatabaseManager.setCurrentDatabase fs_example empty_snapshot (initial ∅)))
  = <[CURRENT_DB := "/snaps/empty"]> ∅.
Proof.
  destruct (setCurrentDatabase_writes_on_return fs_example empty_snapshot (initial ∅))
    as (_ & Hret & _).
  destruct (Hret _ eq_refl) as (_ & _ & Hws). exact Hws.
Defined.

(** X17: A selection made through [setCurrentUri] or [setCurrentItem] is not
    persisted, and the callbacks of [fs.exists] do not write the workspace
    state either: after each of them it is what it was. *)
Theorem selection_alone_not_persisted s :
  (forall fs dir,
     workspaceState (perform (Call_setCurrentUri fs dir) s) = workspaceState s)
  /\ (forall item,
        workspaceState (perform (Call_setCurrentItem item) s) = workspaceState s)
  /\ (forall fs,
        workspaceState (perform (Call_callback fs) s) = workspaceState s).
Proof.
  split; [|split].
  - intros fs dir. simpl. by destruct (setCurrentUri_cases fs dir s).
  - done.
  - intros fs. simpl.
    destruct (run_callback_cases fs s) as
      [[_ ->]|[(this & rest & _ & _ & ->)|(this & rest & it & _ & _ & ->)]];
      simpl; try done.
    by destruct (exists_ fs _).
Qed.
